(** * tommyfx-beauty-shop: feedback moderation, testimonials and feedback
      submission

    A shallow embedding of three React components and of the hosted
    backend they talk to:

    - [TestimonialSection]  (src/components/testimonials/TestimonialSection.tsx)
    - [Feedback]            (the admin feedback moderation page)
    - [Profile]             (the customer profile page, feedback form)

    Every [async] function of a component is a computation in the monad
    [M S A]: it reads and writes the component state [S] (the [useState]
    cells), talks to the backend held in the [World], may throw, and
    emits a chronological list of [Event]s (remote requests, toasts,
    state installs, realtime subscriptions).  An [async] function is run
    from its call to its completion without interleaving: the UI event
    loop is single threaded and the properties below are about one
    operation at a time. *)

From stdpp Require Import base decidable option list strings gmap sorting.
From Stdlib Require Import ZArith.

Local Open Scope string_scope.
Local Open Scope list_scope.
Local Open Scope Z_scope.

(** ** JavaScript values as the components see them *)

Module Js.

(** Loosely typed values coming back from the query layer. *)
Inductive Value :=
| Undefined
| Null
| Bool (b : bool)
| Number (n : Z)
| String (s : string).

#[global] Instance Value_eq_dec : EqDecision Value.
Proof. solve_decision. Defined.

(** [a === b] on primitive values. *)
Definition strict_eq (a b : Value) : bool := bool_decide (a = b).

(** Truthiness of a value: [if (v)], [v || d], [v ? a : b]. *)
Definition truthy (v : Value) : bool :=
  match v with
  | Undefined | Null => false
  | Bool b => b
  | Number n => bool_decide (n ≠ 0)
  | String s => bool_decide (s ≠ "")
  end.

(** A string that may be [null]/[undefined]. *)
Definition truthy_str (o : option string) : bool :=
  match o with
  | Some s => bool_decide (s ≠ "")
  | None => false
  end.

(** [o || d] for a nullable string [o] and a string [d]. *)
Definition or_else (o : option string) (d : string) : string :=
  if truthy_str o then default d o else d.

(** What is thrown and caught: the error object's message. *)
Definition Error := string.

End Js.

(** ** The hosted backend *)

Module Supabase.

(** Table [products]. *)
Module Products.
Record row := { id : string; name : string }.
End Products.

(** Table [profiles]. *)
Module Profiles.
Record row := { id : string; full_name : option string; email : option string }.
End Profiles.

(** Table [feedback], as stored. [approved] is kept as the value the
    query layer hands to the client. *)
Module FeedbackTable.
Record row := {
  id : string;
  comment : string;
  rating : Z;
  user_id : option string;
  product_id : option string;
  created_at : Z;
  approved : Js.Value
}.
End FeedbackTable.

(** The embedded resource [products(name)] of a selected feedback row. *)
Record ProductRef := { name : string }.

(** A row of [from('feedback').select(`id, comment, rating, user_id,
    product_id, created_at, (approved,) products(name)`)]. *)
Record FeedbackRow := {
  id : string;
  comment : string;
  rating : Z;
  user_id : option string;
  product_id : option string;
  created_at : Z;
  approved : Js.Value;
  products : option ProductRef
}.

(** The payload of [from('feedback').insert({...})]. *)
Record FeedbackInsert := {
  ins_user_id : string;
  ins_rating : Z;
  ins_comment : string;
  ins_approved : bool;
  ins_created_at : Z
}.

(** The builder chain on [from('feedback').select(...)]: whether the
    column [approved] is projected, the [.eq('approved', v)] filter and
    the [.limit(n)]; every select of the components is ordered by
    [.order('created_at', { ascending: false })]. *)
Record FeedbackSelect := {
  with_approved : bool;
  eq_approved : option bool;
  limit : option nat
}.

Inductive Request :=
| SelectFeedback (q : FeedbackSelect)
| SelectProfilesIn (ids : list string)
| SelectProfileSingle (id : string)
| UpdateFeedback (id : string) (approved : bool)
| DeleteFeedback (id : string)
| InsertFeedback (payload : FeedbackInsert).

(** What goes wrong with a request: nothing, the awaited response
    carries an [error], or the awaited promise rejects. *)
Inductive Fault :=
| NoFault
| ReturnsError (e : Js.Error)
| Rejects (e : Js.Error).

#[global] Instance Fault_eq_dec : EqDecision Fault.
Proof. solve_decision. Defined.

(** The backend: its tables, the identifiers it hands out, and which
    request fails. The fault of a request may depend on how many
    requests were served before it. *)
Record Backend := {
  feedback_table : list FeedbackTable.row;
  profiles_table : list Profiles.row;
  products_table : list Products.row;
  gen_random_uuid : nat → string;
  fault : nat → Request → Fault
}.

(** The awaited [{ data, error }]. *)
Record Response (A : Type) := { data : option A; error : option Js.Error }.
Arguments data {A} _.
Arguments error {A} _.

Definition ok {A} (d : option A) : Response A := {| data := d; error := None |}.
Definition failed {A} (e : Js.Error) : Response A := {| data := None; error := Some e |}.

(** *** Semantics of the requests the components issue

    The backend is an external collaborator; the definitions below
    follow the interface of section 6 of the specification (column
    projection, equality filter, ordering, limit, batched membership
    filter, insert/update/delete by primary key). *)

(** Most-recent-first on the creation timestamp. *)
Definition newer_first (x y : FeedbackTable.row) : Prop :=
  FeedbackTable.created_at y ≤ FeedbackTable.created_at x.

#[global] Instance newer_first_dec : RelDecision newer_first.
Proof. intros x y. unfold newer_first. apply _. Defined.

Definition join_products (b : Backend) (pid : option string) : option ProductRef :=
  p ← pid;
  r ← List.find (λ r, bool_decide (Products.id r = p)) (products_table b);
  Some {| name := Products.name r |}.

Definition select_row (b : Backend) (q : FeedbackSelect) (r : FeedbackTable.row) : FeedbackRow :=
  {| id := FeedbackTable.id r;
     comment := FeedbackTable.comment r;
     rating := FeedbackTable.rating r;
     user_id := FeedbackTable.user_id r;
     product_id := FeedbackTable.product_id r;
     created_at := FeedbackTable.created_at r;
     approved := if with_approved q then FeedbackTable.approved r else Js.Undefined;
     products := join_products b (FeedbackTable.product_id r) |}.

Definition matching (q : FeedbackSelect) (rows : list FeedbackTable.row) : list FeedbackTable.row :=
  match eq_approved q with
  | Some v => filter (λ r, FeedbackTable.approved r = Js.Bool v) rows
  | None => rows
  end.

Definition limited (q : FeedbackSelect) (rows : list FeedbackTable.row) : list FeedbackTable.row :=
  match limit q with
  | Some n => take n rows
  | None => rows
  end.

(** Modelled from the spec: the stored rows a select on [feedback]
    returns (the backend is not part of the repository): the rows
    matching the equality filter, ordered most-recent-first, cut at the
    limit. *)
Definition selected (b : Backend) (q : FeedbackSelect) : list FeedbackTable.row :=
  limited q (merge_sort newer_first (matching q (feedback_table b))).

Definition exec_select_feedback (b : Backend) (q : FeedbackSelect) : list FeedbackRow :=
  select_row b q <$> selected b q.

(** Modelled from the spec: the batched membership filter
    [.in('id', ids)] on [profiles]. *)
Definition exec_select_profiles_in (b : Backend) (ids : list string) : list Profiles.row :=
  filter (λ p, Profiles.id p ∈ ids) (profiles_table b).

(** Modelled from the spec: [.eq('id', id).single()] on [profiles]:
    exactly one row, or an error. *)
Definition exec_select_profile_single (b : Backend) (id : string) : Response Profiles.row :=
  match filter (λ p, Profiles.id p = id) (profiles_table b) with
  | [p] => ok (Some p)
  | _ => failed "JSON object requested, multiple (or no) rows returned"
  end.

Definition set_approved (v : bool) (r : FeedbackTable.row) : FeedbackTable.row :=
  {| FeedbackTable.id := FeedbackTable.id r;
     FeedbackTable.comment := FeedbackTable.comment r;
     FeedbackTable.rating := FeedbackTable.rating r;
     FeedbackTable.user_id := FeedbackTable.user_id r;
     FeedbackTable.product_id := FeedbackTable.product_id r;
     FeedbackTable.created_at := FeedbackTable.created_at r;
     FeedbackTable.approved := Js.Bool v |}.

Definition with_feedback (b : Backend) (rows : list FeedbackTable.row) : Backend :=
  {| feedback_table := rows;
     profiles_table := profiles_table b;
     products_table := products_table b;
     gen_random_uuid := gen_random_uuid b;
     fault := fault b |}.

(** Modelled from the spec: update by primary key,
    [.update({ approved }).eq('id', id)]. *)
Definition exec_update (b : Backend) (id : string) (v : bool) : Backend :=
  with_feedback b
    ((λ r, if bool_decide (FeedbackTable.id r = id) then set_approved v r else r)
       <$> feedback_table b).

(** Modelled from the spec: delete by primary key,
    [.delete().eq('id', id)]. *)
Definition exec_delete (b : Backend) (id : string) : Backend :=
  with_feedback b (filter (λ r, FeedbackTable.id r ≠ id) (feedback_table b)).

Definition inserted_row (b : Backend) (n : nat) (p : FeedbackInsert) : FeedbackTable.row :=
  {| FeedbackTable.id := gen_random_uuid b n;
     FeedbackTable.comment := ins_comment p;
     FeedbackTable.rating := ins_rating p;
     FeedbackTable.user_id := Some (ins_user_id p);
     FeedbackTable.product_id := None;
     FeedbackTable.created_at := ins_created_at p;
     FeedbackTable.approved := Js.Bool (ins_approved p) |}.

(** Modelled from the spec: [.insert({...}).select()]; the backend
    assigns the identifier. *)
Definition exec_insert (b : Backend) (n : nat) (p : FeedbackInsert) : Backend :=
  with_feedback b (feedback_table b ++ [inserted_row b n p]).

(** A realtime channel with its [postgres_changes] binding. *)
Record Channel := {
  handle : nat;
  topic : string;
  event : string;
  schema : string;
  table : string;
  filter_expr : string
}.

End Supabase.

(** ** Asynchronous component code: state, world, exceptions, events *)

Module Async.
Import Supabase.

Inductive Variant := Default | Destructive.

#[global] Instance Variant_eq_dec : EqDecision Variant.
Proof. solve_decision. Defined.

(** The argument of [toast({ title, description, variant })]. *)
Record ToastMsg := { title : string; description : string; variant : Variant }.

#[global] Instance ToastMsg_eq_dec : EqDecision ToastMsg.
Proof. solve_decision. Defined.

Inductive Event :=
| Remote (req : Request)
| Toast (t : ToastMsg)
| SetState (setter : string)
| Subscribed (c : Channel)
| RemovedChannel (h : nat)
| UnhandledRejection (e : Js.Error).

(** Everything outside the component: the backend, the number of
    requests it has served, the realtime channels currently
    subscribed, and the wall clock read by [new Date()]. *)
Record World := {
  backend : Backend;
  calls : nat;
  channels : list Channel;
  next_handle : nat;
  now : Z
}.

Inductive Outcome (A : Type) :=
| Returned (a : A)
| Threw (e : Js.Error).
Arguments Returned {A} _.
Arguments Threw {A} _.

Record Run (S A : Type) := mkRun {
  outcome : Outcome A;
  ui : S;
  world : World;
  events : list Event
}.
Arguments mkRun {S A} _ _ _ _.
Arguments outcome {S A} _.
Arguments ui {S A} _.
Arguments world {S A} _.
Arguments events {S A} _.

Definition M (S A : Type) : Type := S → World → Run S A.

Definition ret {S A} (a : A) : M S A :=
  λ s w, mkRun (Returned a) s w [].

Definition throw {S A} (e : Js.Error) : M S A :=
  λ s w, mkRun (Threw e) s w [].

Definition bind {S A B} (m : M S A) (f : A → M S B) : M S B :=
  λ s w,
    match m s w with
    | mkRun (Returned a) s1 w1 evs1 =>
        match f a s1 w1 with
        | mkRun o s2 w2 evs2 => mkRun o s2 w2 (evs1 ++ evs2)
        end
    | mkRun (Threw e) s1 w1 evs1 => mkRun (Threw e) s1 w1 evs1
    end.

(** [try { body } catch (e) { handler }] *)
Definition try_catch {S A} (body : M S A) (handler : Js.Error → M S A) : M S A :=
  λ s w,
    match body s w with
    | mkRun (Returned a) s1 w1 evs1 => mkRun (Returned a) s1 w1 evs1
    | mkRun (Threw e) s1 w1 evs1 =>
        match handler e s1 w1 with
        | mkRun o s2 w2 evs2 => mkRun o s2 w2 (evs1 ++ evs2)
        end
    end.

(** [try { body } finally { fin }] *)
Definition try_finally {S A} (body : M S A) (fin : M S unit) : M S A :=
  λ s w,
    match body s w with
    | mkRun o s1 w1 evs1 =>
        match fin s1 w1 with
        | mkRun (Returned _) s2 w2 evs2 => mkRun o s2 w2 (evs1 ++ evs2)
        | mkRun (Threw e) s2 w2 evs2 => mkRun (Threw e) s2 w2 (evs1 ++ evs2)
        end
    end.

Definition emit {S} (e : Event) : M S unit :=
  λ s w, mkRun (Returned tt) s w [e].

(** The current value of the [useState] cells. *)
Definition get {S} : M S S :=
  λ s w, mkRun (Returned s) s w [].

(** A [useState] setter: [setX(v)] or [setX(prev => ...)]. *)
Definition set_state {S} (setter : string) (f : S → S) : M S unit :=
  λ s w, mkRun (Returned tt) (f s) w [SetState setter].

Definition toast {S} (t : ToastMsg) : M S unit := emit (Toast t).

(** Calling an [async] function without awaiting it: whatever it
    throws is not seen by the caller. *)
Definition spawn {S} (m : M S unit) : M S unit :=
  try_catch m (λ e, emit (UnhandledRejection e)).

Definition served (w : World) (b : Backend) : World :=
  {| backend := b; calls := S (calls w); channels := channels w;
     next_handle := next_handle w; now := now w |}.

(** [await supabase.from(...)...]: the request is recorded, then the
    backend either serves it, answers with an error, or the promise
    rejects. *)
Definition request {S A} (req : Request)
    (exec : Backend → nat → Response A * Backend) : M S (Response A) :=
  λ s w,
    match fault (backend w) (calls w) req with
    | NoFault =>
        let '(resp, b') := exec (backend w) (calls w) in
        mkRun (Returned resp) s (served w b') [Remote req]
    | ReturnsError e =>
        mkRun (Returned (failed e)) s (served w (backend w)) [Remote req]
    | Rejects e =>
        mkRun (Threw e) s (served w (backend w)) [Remote req]
    end.

Definition select_feedback {S} (q : FeedbackSelect) : M S (Response (list FeedbackRow)) :=
  request (SelectFeedback q) (λ b _, (ok (Some (exec_select_feedback b q)), b)).

Definition select_profiles_in {S} (ids : list string) : M S (Response (list Profiles.row)) :=
  request (SelectProfilesIn ids) (λ b _, (ok (Some (exec_select_profiles_in b ids)), b)).

Definition select_profile_single {S} (id : string) : M S (Response Profiles.row) :=
  request (SelectProfileSingle id) (λ b _, (exec_select_profile_single b id, b)).

(** No [.select()] on update and delete: [data] is [null]. *)
Definition update_feedback {S} (id : string) (v : bool) : M S (Response unit) :=
  request (UpdateFeedback id v) (λ b _, (ok None, exec_update b id v)).

Definition delete_feedback {S} (id : string) : M S (Response unit) :=
  request (DeleteFeedback id) (λ b _, (ok None, exec_delete b id)).

Definition insert_feedback {S} (p : FeedbackInsert) : M S (Response (list FeedbackTable.row)) :=
  request (InsertFeedback p)
    (λ b n, (ok (Some [inserted_row b n p]), exec_insert b n p)).

(** [supabase.channel(topic).on('postgres_changes', {...}, cb).subscribe()] *)
Definition subscribe {S} (topic event schema table flt : string) : M S nat :=
  λ s w,
    let c := {| handle := next_handle w; topic := topic; event := event;
                schema := schema; table := table; filter_expr := flt |} in
    mkRun (Returned (next_handle w)) s
      {| backend := backend w; calls := calls w;
         channels := channels w ++ [c];
         next_handle := Datatypes.S (next_handle w); now := now w |}
      [Subscribed c].

(** [supabase.removeChannel(channel)] *)
Definition removeChannel {S} (h : nat) : M S unit :=
  λ s w,
    mkRun (Returned tt) s
      {| backend := backend w; calls := calls w;
         channels := filter (λ c, handle c ≠ h) (channels w);
         next_handle := next_handle w; now := now w |}
      [RemovedChannel h].

(** [for (const x of xs) { body }] threading the local variables [acc]. *)
Fixpoint for_of {S A B} (xs : list A) (acc : B) (body : B → A → M S B) : M S B :=
  match xs with
  | [] => ret acc
  | x :: xs' => bind (body acc x) (λ acc', for_of xs' acc' body)
  end.

(** Projections of a trace. *)
Definition remote_requests (evs : list Event) : list Request :=
  omap (λ e, match e with Remote r => Some r | _ => None end) evs.

Definition toasts (evs : list Event) : list ToastMsg :=
  omap (λ e, match e with Toast t => Some t | _ => None end) evs.

Definition is_profile_lookup (r : Request) : bool :=
  match r with
  | SelectProfilesIn _ | SelectProfileSingle _ => true
  | _ => false
  end.

Definition is_feedback_write (r : Request) : bool :=
  match r with
  | UpdateFeedback _ _ | DeleteFeedback _ | InsertFeedback _ => true
  | _ => false
  end.

(** The secondary lookups (requests on table [profiles]) of a trace. *)
Definition profile_lookups (evs : list Event) : list Request :=
  filter (λ r, is_profile_lookup r = true) (remote_requests evs).

(** Position of the first event satisfying [p]. *)
Fixpoint index_of (p : Event → bool) (evs : list Event) : option nat :=
  match evs with
  | [] => None
  | e :: evs' => if p e then Some 0%nat else S <$> index_of p evs'
  end.

End Async.

Notation "'do' x '<-' m ';' k" := (Async.bind m (λ x, k))
  (at level 10, x name, m at level 100, k at level 200, only parsing).
Notation "'run' m ';' k" := (Async.bind m (λ _, k))
  (at level 10, m at level 100, k at level 200, only parsing).

(** ** TestimonialSection.tsx *)

Module TestimonialSection.
Import Supabase Async.

(** [new Date(created_at).toLocaleDateString()]: the rendering depends
    on the locale of the browser, so the formatted date is kept as the
    timestamp it is formatted from. *)
Inductive LocaleDateString := toLocaleDateString (created_at : Z).

Record Testimonial := {
  id : string;
  author : string;
  role : option string;
  content : string;
  rating : Z;
  product_name : option string;
  date : option LocaleDateString
}.

Record State := {
  testimonials : list Testimonial;
  loading : bool
}.

(** [useState<Testimonial[]>([])], [useState(true)] *)
Definition initial : State := {| testimonials := []; loading := true |}.

Definition setTestimonials (ts : list Testimonial) : M State unit :=
  set_state "setTestimonials" (λ s, {| testimonials := ts; loading := loading s |}).

Definition setLoading (b : bool) : M State unit :=
  set_state "setLoading" (λ s, {| testimonials := testimonials s; loading := b |}).

(** [.eq('approved', true).order('created_at', { ascending: false }).limit(10)] *)
Definition approved_query : FeedbackSelect :=
  {| with_approved := false; eq_approved := Some true; limit := Some 10%nat |}.

(** [item.products?.name] *)
Definition products_name (item : FeedbackRow) : option string :=
  name <$> products item.

(** The object built for each row by the first [data.map]. *)
Definition to_testimonial (item : FeedbackRow) : Testimonial :=
  {| id := Supabase.id item;
     author := "Anonymous Customer";
     role := Some (if Js.truthy_str (products_name item)
                   then "on " +:+ default "" (products_name item)
                   else "on TommyFX Beauty");
     content := comment item;
     rating := Supabase.rating item;
     product_name := products_name item;
     date := Some (toLocaleDateString (created_at item)) |}.

(** [data?.filter(item => item.user_id != null).map(item => item.user_id)] *)
Definition userIds_of (data : list FeedbackRow) : list string :=
  omap user_id data.

(** [profilesData.forEach(profile => { profileMap[profile.id] = profile })].
    The keys are profile identifiers, so the object is used as a map. *)
Definition profileMap_of (profilesData : list Profiles.row) : gmap string Profiles.row :=
  foldl (λ m profile, <[Profiles.id profile := profile]> m) ∅ profilesData.

Definition with_author (t : Testimonial) (a : string) : Testimonial :=
  {| id := id t; author := a; role := role t; content := content t;
     rating := rating t; product_name := product_name t; date := date t |}.

(** The body of the second [mappedTestimonials.map]. *)
Definition resolve_author (data : list FeedbackRow)
    (profileMap : gmap string Profiles.row) (testimonial : Testimonial) : Testimonial :=
  let feedbackItem :=
    List.find (λ item, bool_decide (Supabase.id item = id testimonial)) data in
  match feedbackItem with
  | Some item =>
      if Js.truthy_str (user_id item) then
        match profileMap !! default "" (user_id item) with
        | Some profile =>
            with_author testimonial
              (Js.or_else (Profiles.full_name profile) "Anonymous Customer")
        | None => testimonial
        end
      else testimonial
  | None => testimonial
  end.

(** The identity reference of a row cannot be resolved on backend
    [b]: it is null, or no profile carries it, or the batched lookup
    fails whenever it is issued. *)
Definition unresolved (b : Backend) (item : FeedbackRow) : Prop :=
  match user_id item with
  | None => True
  | Some u =>
      u ∉ Profiles.id <$> profiles_table b ∨
      ∀ k ids, fault b k (SelectProfilesIn ids) ≠ NoFault
  end.

(** The role string of a row whose product, if any, is [p]. *)
Definition role_for (p : option ProductRef) : string :=
  match p with
  | Some p => if bool_decide (name p ≠ "") then "on " +:+ name p else "on TommyFX Beauty"
  | None => "on TommyFX Beauty"
  end.

(** Testimonial [t] displays the stored record [rec] of backend [b]. *)
Definition displays (b : Backend) (rec : FeedbackTable.row) (t : Testimonial) : Prop :=
  id t = FeedbackTable.id rec ∧
  content t = FeedbackTable.comment rec ∧
  rating t = FeedbackTable.rating rec ∧
  date t = Some (toLocaleDateString (FeedbackTable.created_at rec)) ∧
  role t = Some (role_for (join_products b (FeedbackTable.product_id rec))).

Definition error_toast : ToastMsg :=
  {| title := "Error";
     description := "Failed to load testimonials";
     variant := Destructive |}.

Definition fetchApprovedFeedback : M State unit :=
  try_finally
    (try_catch
       (run setLoading true;
        do resp <- select_feedback approved_query;
        match error resp with
        | Some e => throw e
        | None =>
            match data resp with
            | None | Some [] => setTestimonials []
            | Some data =>
                let mappedTestimonials := to_testimonial <$> data in
                let userIds := userIds_of data in
                do mappedTestimonials <-
                  match userIds with
                  | [] => ret mappedTestimonials
                  | _ :: _ =>
                      do presp <- select_profiles_in userIds;
                      match error presp, Supabase.data presp with
                      | Some _, _ => ret mappedTestimonials
                      | None, Some profilesData =>
                          let profileMap := profileMap_of profilesData in
                          ret (resolve_author data profileMap <$> mappedTestimonials)
                      | None, None => ret mappedTestimonials
                      end
                  end;
                setTestimonials mappedTestimonials
            end
        end)
       (λ _,
          run toast error_toast;
          setTestimonials []))
    (setLoading false).

(** The first [useEffect]: a realtime subscription whose callback
    re-fetches. It returns the channel its cleanup removes. *)
Definition effect_listen : M State nat :=
  subscribe "public:feedback" "*" "public" "feedback" "approved=eq.true".

(** The second [useEffect]: the same subscription, then the initial
    fetch. *)
Definition effect_listen_and_fetch : M State nat :=
  do channel <- subscribe "public:feedback" "*" "public" "feedback" "approved=eq.true";
  run spawn fetchApprovedFeedback;
  ret channel.

(** The view becomes active: both effects run, in source order. The
    result is the list of channels held by the cleanups. *)
Definition mount : M State (list nat) :=
  do c1 <- effect_listen;
  do c2 <- effect_listen_and_fetch;
  ret [c1; c2].

(** The view becomes inactive: the cleanups run. *)
Definition unmount (cleanups : list nat) : M State unit :=
  for_of cleanups tt (λ _ c, removeChannel c).

(** A change notification on table [feedback] arrives: the callback of
    every subscribed channel bound to that table runs. *)
Definition on_change : M State unit :=
  λ s w,
    for_of (filter (λ c, table c = "feedback") (channels w)) tt
      (λ _ _, spawn fetchApprovedFeedback) s w.

(** The stored records a run displays when it starts as request
    number [n] of backend [b]: the selected ones, unless the select
    fails or the profile lookup rejects. *)
Definition shown (b : Backend) (n : nat) : list FeedbackTable.row :=
  match fault b n (SelectFeedback approved_query) with
  | NoFault =>
      match userIds_of (exec_select_feedback b approved_query) with
      | [] => selected b approved_query
      | ids =>
          match fault b (S n) (SelectProfilesIn ids) with
          | Rejects _ => []
          | _ => selected b approved_query
          end
      end
  | _ => []
  end.

Definition subscriptions (evs : list Event) : list Channel :=
  omap (λ e, match e with Subscribed c => Some c | _ => None end) evs.

(** The primary queries of a trace. *)
Definition primary_queries (evs : list Event) : list FeedbackSelect :=
  omap (λ e, match e with Remote (SelectFeedback q) => Some q | _ => None end) evs.

(** The channel a [subscribe] of this component creates under handle [h]. *)
Definition feedback_channel (h : nat) : Channel :=
  {| handle := h; topic := "public:feedback"; event := "*"; schema := "public";
     table := "feedback"; filter_expr := "approved=eq.true" |}.

(** What the component renders: the skeletons while [loading], the
    cards when [testimonials.length > 0], the "No approved testimonials
    yet" box otherwise. *)
Inductive View :=
| Skeleton
| Cards (ts : list Testimonial)
| EmptyState.

Definition view (s : State) : View :=
  if loading s then Skeleton
  else match testimonials s with
       | [] => EmptyState
       | ts => Cards ts
       end.

End TestimonialSection.

(** ** The admin feedback page *)

Module Feedback.
Import Supabase Async.

Record FeedbackItem := {
  id : string;
  created_at : Z;
  name : string;
  email : string;
  message : string;
  approved : bool;
  user_id : option string;
  product_id : option string;
  rating : Z;
  product_name : string
}.

Record State := {
  feedback : list FeedbackItem;
  loading : bool;
  updating : option string;
  deleteDialogOpen : bool;
  feedbackToDelete : option string
}.

Definition initial : State :=
  {| feedback := []; loading := true; updating := None;
     deleteDialogOpen := false; feedbackToDelete := None |}.

Definition setFeedback (f : list FeedbackItem → list FeedbackItem) : M State unit :=
  set_state "setFeedback"
    (λ s, {| feedback := f (feedback s); loading := loading s; updating := updating s;
             deleteDialogOpen := deleteDialogOpen s;
             feedbackToDelete := feedbackToDelete s |}).

Definition setLoading (b : bool) : M State unit :=
  set_state "setLoading"
    (λ s, {| feedback := feedback s; loading := b; updating := updating s;
             deleteDialogOpen := deleteDialogOpen s;
             feedbackToDelete := feedbackToDelete s |}).

Definition setUpdating (u : option string) : M State unit :=
  set_state "setUpdating"
    (λ s, {| feedback := feedback s; loading := loading s; updating := u;
             deleteDialogOpen := deleteDialogOpen s;
             feedbackToDelete := feedbackToDelete s |}).

Definition setDeleteDialogOpen (b : bool) : M State unit :=
  set_state "setDeleteDialogOpen"
    (λ s, {| feedback := feedback s; loading := loading s; updating := updating s;
             deleteDialogOpen := b; feedbackToDelete := feedbackToDelete s |}).

Definition setFeedbackToDelete (u : option string) : M State unit :=
  set_state "setFeedbackToDelete"
    (λ s, {| feedback := feedback s; loading := loading s; updating := updating s;
             deleteDialogOpen := deleteDialogOpen s; feedbackToDelete := u |}).

(** [.order('created_at', { ascending: false })], no filter, no limit. *)
Definition all_query : FeedbackSelect :=
  {| with_approved := true; eq_approved := None; limit := None |}.

(** The per-row lookup of the loop body: the [name] and [email] left
    in the local variables after the inner [try]/[catch]. *)
Definition lookup_user (item : FeedbackRow) : M State (string * string) :=
  let name := "Anonymous User" in
  let email := "No Email" in
  if Js.truthy_str (Supabase.user_id item) then
    try_catch
      (do resp <- select_profile_single (default "" (Supabase.user_id item));
       match error resp, data resp with
       | None, Some userData =>
           ret (Js.or_else (Profiles.full_name userData) name,
                Js.or_else (Profiles.email userData) email)
       | _, _ => ret (name, email)
       end)
      (λ _, ret (name, email))
  else ret (name, email).

(** The object pushed onto [processedFeedback]. *)
Definition to_item (item : FeedbackRow) (name email : string) : FeedbackItem :=
  let isApproved := Js.strict_eq (Supabase.approved item) (Js.Bool true) in
  {| id := Supabase.id item;
     created_at := Supabase.created_at item;
     name := name;
     email := email;
     message := comment item;
     approved := isApproved;
     user_id := Supabase.user_id item;
     product_id := Supabase.product_id item;
     rating := Supabase.rating item;
     product_name := Js.or_else (Supabase.name <$> products item) "General Feedback" |}.

Definition process (processedFeedback : list FeedbackItem) (item : FeedbackRow)
    : M State (list FeedbackItem) :=
  do ne <- lookup_user item;
  ret (processedFeedback ++ [to_item item ne.1 ne.2])%list.

Definition error_toast : ToastMsg :=
  {| title := "Error";
     description := "Failed to load feedback data";
     variant := Destructive |}.

Definition fetchFeedback : M State unit :=
  try_catch
    (do resp <- select_feedback all_query;
     match error resp with
     | Some e => throw e
     | None =>
         do processedFeedback <- for_of (default [] (data resp)) [] process;
         run setFeedback (λ _, processedFeedback);
         setLoading false
     end)
    (λ _,
       run toast error_toast;
       setLoading false).

(** [useEffect(() => { setLoading(true); fetchFeedback(); }, [])] *)
Definition mount : M State unit :=
  run setLoading true;
  spawn fetchFeedback.

(** [item.id === id ? { ...item, approved } : item] *)
Definition with_approved_of (id : string) (approved : bool) (item : FeedbackItem) : FeedbackItem :=
  if bool_decide (Feedback.id item = id) then
    {| id := Feedback.id item; created_at := created_at item; name := name item;
       email := email item; message := message item; approved := approved;
       user_id := user_id item; product_id := product_id item;
       rating := rating item; product_name := product_name item |}
  else item.

Definition updateFeedbackStatus (id : string) (approved : bool) : M State unit :=
  try_finally
    (try_catch
       (run setUpdating (Some id);
        do resp <- update_feedback id approved;
        match error resp with
        | Some e => throw e
        | None =>
            run setFeedback (λ prev, with_approved_of id approved <$> prev);
            toast {| title := if approved then "Feedback Approved" else "Feedback Unapproved";
                     description := if approved then "Feedback is now public"
                                    else "Feedback has been hidden";
                     variant := Default |}
        end)
       (λ _,
          run setFeedback (λ prev, with_approved_of id approved <$> prev);
          toast {| title := "UI Updated";
                   description := "Status changed in UI but database update might require permission changes";
                   variant := Destructive |}))
    (setUpdating None).

Definition deleteFeedback : M State unit :=
  do s <- get;
  if negb (Js.truthy_str (feedbackToDelete s)) then ret tt
  else
    let target := default "" (feedbackToDelete s) in
    try_finally
      (try_catch
         (run setUpdating (Some target);
          do resp <- delete_feedback target;
          match error resp with
          | Some e => throw e
          | None =>
              run setFeedback (λ prev, filter (λ item, Feedback.id item ≠ target) prev);
              toast {| title := "Feedback Deleted";
                       description := "The feedback has been permanently removed";
                       variant := Default |}
          end)
         (λ _,
            run setFeedback (λ prev, filter (λ item, Feedback.id item ≠ target) prev);
            toast {| title := "UI Updated";
                     description := "Item removed from UI but database deletion might require permission changes";
                     variant := Destructive |}))
      (run setUpdating None;
       run setFeedbackToDelete None;
       setDeleteDialogOpen false).

Definition handleDeleteClick (id : string) : M State unit :=
  run setFeedbackToDelete (Some id);
  setDeleteDialogOpen true.

(** The requests the loop of [fetchFeedback] issues for one row. *)
Definition lookup_events (item : FeedbackRow) : list Event :=
  if Js.truthy_str (Supabase.user_id item)
  then [Remote (SelectProfileSingle (default "" (Supabase.user_id item)))]
  else [].

(** The identity reference of a row cannot be resolved on backend
    [b]: it is null, or no profile carries it, or the lookup of it
    fails whenever it is issued. *)
Definition unresolved (b : Backend) (item : FeedbackRow) : Prop :=
  match Supabase.user_id item with
  | None => True
  | Some u =>
      u ∉ Profiles.id <$> profiles_table b ∨
      ∀ k, fault b k (SelectProfileSingle u) ≠ NoFault
  end.

(** The identity references the loop looks up, one per row that
    carries a non-empty one. *)
Definition referenced (rows : list FeedbackRow) : list string :=
  omap (λ item, if Js.truthy_str (Supabase.user_id item)
                then Supabase.user_id item else None) rows.

(** [item] is the record the loop pushes for [row] on backend [b]. *)
Definition pushed_for (b : Backend) (row : FeedbackRow) (item : FeedbackItem) : Prop :=
  ∃ n e, item = to_item row n e ∧
         (unresolved b row → n = "Anonymous User" ∧ e = "No Email").

(** The moderator's mutations as the page offers them: the approval
    toggle of a row, and the delete button of a row followed by the
    confirmation of the dialog. *)
Inductive Mutation :=
| SetStatus (id : string) (approved : bool)
| Delete (id : string).

Definition mutate (m : Mutation) : M State unit :=
  match m with
  | SetStatus id approved => updateFeedbackStatus id approved
  | Delete id => run handleDeleteClick id; deleteFeedback
  end.

(** The remote write of a mutation. *)
Definition write_of (m : Mutation) : Request :=
  match m with
  | SetStatus id approved => UpdateFeedback id approved
  | Delete id => DeleteFeedback id
  end.

(** The record list [new] shows the change intended by [m] on [old]:
    after a status change every record keeps its place, the records
    with the target identifier show the requested flag and nothing
    else changes; after a delete exactly the records with another
    identifier remain, in their order. *)
Definition reflects (m : Mutation) (old new : list FeedbackItem) : Prop :=
  match m with
  | SetStatus id a =>
      length new = length old ∧
      ∀ (i : nat) (x : FeedbackItem), old !! i = Some x →
        ∃ y, new !! i = Some y ∧
             Feedback.id y = Feedback.id x ∧ created_at y = created_at x ∧
             name y = name x ∧ email y = email x ∧ message y = message x ∧
             user_id y = user_id x ∧ product_id y = product_id x ∧
             rating y = rating x ∧ product_name y = product_name x ∧
             approved y = (if bool_decide (Feedback.id x = id) then a else approved x)
  | Delete id =>
      sublist new old ∧ ∀ y, y ∈ new ↔ y ∈ old ∧ Feedback.id y ≠ id
  end.

(** The warning shown when a remote write fails. *)
Definition warning_of (m : Mutation) : ToastMsg :=
  match m with
  | SetStatus _ _ =>
      {| title := "UI Updated";
         description := "Status changed in UI but database update might require permission changes";
         variant := Destructive |}
  | Delete _ =>
      {| title := "UI Updated";
         description := "Item removed from UI but database deletion might require permission changes";
         variant := Destructive |}
  end.

Definition is_install (setter : string) (e : Event) : bool :=
  match e with
  | SetState s => bool_decide (s = setter)
  | _ => false
  end.

Definition is_write (e : Event) : bool :=
  match e with
  | Remote r => is_feedback_write r
  | _ => false
  end.

(** In the trace, the record list is installed before the remote
    write is issued. *)
Definition install_precedes_write (evs : list Event) : bool :=
  match index_of (is_install "setFeedback") evs, index_of is_write evs with
  | Some i, Some j => bool_decide (i < j)%nat
  | _, _ => false
  end.

(** In the trace, the remote write is issued before the record list
    is installed. *)
Definition write_precedes_install (evs : list Event) : bool :=
  match index_of (is_install "setFeedback") evs, index_of is_write evs with
  | Some i, Some j => bool_decide (j < i)%nat
  | _, _ => false
  end.

(** [onClick={() => updateFeedbackStatus(item.id, !item.approved)}] on
    the approval button of a row. *)
Definition toggle (item : FeedbackItem) : M State unit :=
  updateFeedbackStatus (Feedback.id item) (negb (approved item)).

(** [disabled={updating === item.id}] on the approval button of a row. *)
Definition toggle_disabled (s : State) (item : FeedbackItem) : bool :=
  bool_decide (updating s = Some (Feedback.id item)).

(** [disabled={updating !== null}] on the delete button of every row and
    on both buttons of the confirmation dialog. *)
Definition delete_disabled (s : State) : bool :=
  bool_decide (updating s ≠ None).

(** [disabled={loading || updating !== null}] on the Refresh button. *)
Definition refresh_disabled (s : State) : bool :=
  loading s || bool_decide (updating s ≠ None).

(** What the page renders: the skeletons while [loading], the table
    rows when [feedback.length > 0], the "No feedback found" row
    otherwise. *)
Inductive View :=
| Skeleton
| Rows (items : list FeedbackItem)
| NoFeedbackFound.

Definition view (s : State) : View :=
  if loading s then Skeleton
  else match feedback s with
       | [] => NoFeedbackFound
       | items => Rows items
       end.

(** What the moderator does on the loaded page: press Refresh, or
    perform a mutation. *)
Inductive Step :=
| Refresh
| Change (m : Mutation).

Definition step (st : Step) : M State unit :=
  match st with
  | Refresh => fetchFeedback
  | Change m => mutate m
  end.

(** A session: the steps run one after the other, each on the state and
    the world the previous one left. *)
Fixpoint session (sts : list Step) (s : State) (w : World) : State * World :=
  match sts with
  | [] => (s, w)
  | st :: sts' => session sts' (ui (step st s w)) (world (step st s w))
  end.

(** The identity reference of a row resolves to profile [p] on backend
    [b]: it is a non-empty identifier carried by [p] and by no other
    profile, and the lookup of it is served whenever it is issued. *)
Definition resolves_to (b : Backend) (item : FeedbackRow) (p : Profiles.row) : Prop :=
  ∃ u, Supabase.user_id item = Some u ∧ u ≠ "" ∧
       filter (λ q, Profiles.id q = u) (profiles_table b) = [p] ∧
       ∀ k, fault b k (SelectProfileSingle u) = NoFault.

(** The product column of a stored row. *)
Definition product_cell (b : Backend) (rec : FeedbackTable.row) : string :=
  match join_products b (FeedbackTable.product_id rec) with
  | Some p => if bool_decide (Supabase.name p ≠ "") then Supabase.name p else "General Feedback"
  | None => "General Feedback"
  end.

End Feedback.

(** ** The customer profile page: the feedback form *)

Module Profile.
Import Supabase Async.

(** The identity handed out by [useAuth()]. *)
Record User := { id : string; email : option string }.

Record FeedbackData := { rating : Z; comment : string }.

Record State := {
  user : option User;
  feedbackData : FeedbackData;
  submittedFeedback : list FeedbackTable.row;
  loading : bool
}.

Definition setLoading (b : bool) : M State unit :=
  set_state "setLoading"
    (λ s, {| user := user s; feedbackData := feedbackData s;
             submittedFeedback := submittedFeedback s; loading := b |}).

Definition setFeedbackData (d : FeedbackData) : M State unit :=
  set_state "setFeedbackData"
    (λ s, {| user := user s; feedbackData := d;
             submittedFeedback := submittedFeedback s; loading := loading s |}).

Definition setSubmittedFeedback (l : list FeedbackTable.row) : M State unit :=
  set_state "setSubmittedFeedback"
    (λ s, {| user := user s; feedbackData := feedbackData s;
             submittedFeedback := l; loading := loading s |}).

(** [new Date().toISOString()] *)
Definition new_Date : M State Z := λ s w, mkRun (Returned (now w)) s w [].

Definition handleFeedbackSubmit : M State unit :=
  do s <- get;
  if negb (Js.truthy (Js.String (comment (feedbackData s)))) then
    toast {| title := "Comment required";
             description := "Please provide your feedback";
             variant := Destructive |}
  else
    run setLoading true;
    try_finally
      (try_catch
         match user s with
         | None =>
             toast {| title := "Not logged in";
                      description := "You need to be logged in to submit feedback";
                      variant := Destructive |}
         | Some user =>
             do created_at <- new_Date;
             do resp <- insert_feedback
                          {| ins_user_id := id user;
                             ins_rating := rating (feedbackData s);
                             ins_comment := comment (feedbackData s);
                             ins_approved := false;
                             ins_created_at := created_at |};
             match error resp with
             | Some e => throw e
             | None =>
                 run toast {| title := "Feedback sent";
                              description := "Thank you for your feedback! It will be visible after admin approval.";
                              variant := Default |};
                 run match data resp with
                     | Some (d0 :: _) => setSubmittedFeedback (d0 :: submittedFeedback s)
                     | _ => ret tt
                     end;
                 setFeedbackData {| rating := 5; comment := "" |}
             end
         end
         (λ _,
            toast {| title := "Submission failed";
                     description := "An error occurred while sending your feedback";
                     variant := Destructive |}))
      (setLoading false).

(** [handleRatingChange]: a click on one of the five rating buttons. *)
Definition handleRatingChange (rating : Z) : M State unit :=
  do s <- get;
  setFeedbackData {| rating := rating; comment := comment (feedbackData s) |}.

(** [handleFeedbackChange] on the change event of the textarea, the only
    element bound to it: [e.target.name] is ["comment"], so
    [{ ...feedbackData, [name]: value }] replaces the comment. *)
Definition handleFeedbackChange (value : string) : M State unit :=
  do s <- get;
  setFeedbackData {| rating := rating (feedbackData s); comment := value |}.

(** One character of [toLowerCase]: the letters A to Z move to a to z.
    Every other byte is kept; the characters outside ASCII that
    JavaScript lower-cases become characters outside ASCII again, except
    the Kelvin sign, which becomes the letter k. *)
Definition lower (c : Ascii.ascii) : Ascii.ascii :=
  let n := Ascii.N_of_ascii c in
  if ((65 <=? n) && (n <=? 90))%N then Ascii.ascii_of_N (n + 32) else c.

(** [status.toLowerCase()] *)
Fixpoint toLowerCase (s : string) : string :=
  match s with
  | EmptyString => EmptyString
  | String c s' => String (lower c) (toLowerCase s')
  end.

(** The five statuses [getStatusColor] knows. *)
Definition statuses : list string :=
  ["pending"; "processing"; "shipped"; "delivered"; "cancelled"].

(** [getStatusColor]: the [switch] on the lower-cased status. *)
Definition getStatusColor (status : string) : string :=
  let l := toLowerCase status in
  if bool_decide (l = "pending") then "bg-yellow-100 text-yellow-800"
  else if bool_decide (l = "processing") then "bg-blue-100 text-blue-800"
  else if bool_decide (l = "shipped") then "bg-purple-100 text-purple-800"
  else if bool_decide (l = "delivered") then "bg-green-100 text-green-800"
  else if bool_decide (l = "cancelled") then "bg-red-100 text-red-800"
  else "bg-gray-100 text-gray-800".

End Profile.

(** ** The operations of the three components, side by side *)

Module App.
Import Supabase Async.

(** One user-visible operation of a component, with the component
    state it starts from. *)
Inductive Operation :=
| TestimonialsMount (s : TestimonialSection.State)
| TestimonialsChanged (s : TestimonialSection.State)
| TestimonialsUnmount (s : TestimonialSection.State) (cleanups : list nat)
| AdminMount (s : Feedback.State)
| AdminRefresh (s : Feedback.State)
| AdminSetStatus (s : Feedback.State) (id : string) (approved : bool)
| AdminDelete (s : Feedback.State)
| ProfileSubmitFeedback (s : Profile.State).

(** The world an operation leaves behind. *)
Definition world_after (op : Operation) (w : World) : World :=
  match op with
  | TestimonialsMount s => world (TestimonialSection.mount s w)
  | TestimonialsChanged s => world (TestimonialSection.on_change s w)
  | TestimonialsUnmount s cs => world (TestimonialSection.unmount cs s w)
  | AdminMount s => world (Feedback.mount s w)
  | AdminRefresh s => world (Feedback.fetchFeedback s w)
  | AdminSetStatus s id approved => world (Feedback.updateFeedbackStatus id approved s w)
  | AdminDelete s => world (Feedback.deleteFeedback s w)
  | ProfileSubmitFeedback s => world (Profile.handleFeedbackSubmit s w)
  end.

End App.

(** ** A small shop, used to run the components *)

Module Sample.
Import Supabase Async.

Definition glow_serum : Products.row := {| Products.id := "p1"; Products.name := "Glow Serum" |}.
Definition unnamed_product : Products.row := {| Products.id := "p0"; Products.name := "" |}.

Definition ada : Profiles.row :=
  {| Profiles.id := "u1"; Profiles.full_name := Some "Ada Okafor";
     Profiles.email := Some "ada@example.com" |}.
Definition bea : Profiles.row :=
  {| Profiles.id := "u2"; Profiles.full_name := Some "Bea Lund";
     Profiles.email := Some "bea@example.com" |}.

Definition f1 : FeedbackTable.row :=
  {| FeedbackTable.id := "f1"; FeedbackTable.comment := "Lovely";
     FeedbackTable.rating := 5; FeedbackTable.user_id := Some "u1";
     FeedbackTable.product_id := Some "p1"; FeedbackTable.created_at := 300;
     FeedbackTable.approved := Js.Bool true |}.
Definition f2 : FeedbackTable.row :=
  {| FeedbackTable.id := "f2"; FeedbackTable.comment := "Good";
     FeedbackTable.rating := 4; FeedbackTable.user_id := Some "u2";
     FeedbackTable.product_id := None; FeedbackTable.created_at := 500;
     FeedbackTable.approved := Js.Bool true |}.
Definition f3 : FeedbackTable.row :=
  {| FeedbackTable.id := "f3"; FeedbackTable.comment := "Fine";
     FeedbackTable.rating := 3; FeedbackTable.user_id := None;
     FeedbackTable.product_id := Some "p1"; FeedbackTable.created_at := 400;
     FeedbackTable.approved := Js.Bool false |}.
Definition f4 : FeedbackTable.row :=
  {| FeedbackTable.id := "f4"; FeedbackTable.comment := "Nice";
     FeedbackTable.rating := 4; FeedbackTable.user_id := Some "u9";
     FeedbackTable.product_id := Some "p0"; FeedbackTable.created_at := 100;
     FeedbackTable.approved := Js.Bool true |}.

Definition uuid (n : nat) : string := "new-" +:+ String.concat "" (replicate n "i").

(** A backend on which every request succeeds. *)
Definition shop : Backend :=
  {| feedback_table := [f1; f2; f3];
     profiles_table := [ada; bea];
     products_table := [glow_serum; unnamed_product];
     gen_random_uuid := uuid;
     fault := λ _ _, NoFault |}.

(** The same shop with a fourth row, attached to the product whose
    name is empty and written by a user without a profile. *)
Definition shop4 : Backend :=
  {| feedback_table := [f1; f2; f3; f4];
     profiles_table := [ada; bea];
     products_table := [glow_serum; unnamed_product];
     gen_random_uuid := uuid;
     fault := λ _ _, NoFault |}.

(** The same shop where every write to [feedback] is refused. *)
Definition read_only_shop : Backend :=
  {| feedback_table := [f1; f2; f3];
     profiles_table := [ada; bea];
     products_table := [glow_serum; unnamed_product];
     gen_random_uuid := uuid;
     fault := λ _ r, if is_feedback_write r then ReturnsError "permission denied" else NoFault |}.

(** The same shop where every select on [feedback] fails. *)
Definition unreachable_shop : Backend :=
  {| feedback_table := [f1; f2; f3];
     profiles_table := [ada; bea];
     products_table := [glow_serum; unnamed_product];
     gen_random_uuid := uuid;
     fault := λ _ r, match r with
                     | SelectFeedback _ => ReturnsError "network"
                     | _ => NoFault
                     end |}.

Definition world_of (b : Backend) : World :=
  {| backend := b; calls := 0; channels := []; next_handle := 0; now := 1000 |}.

(** The admin page after a successful load of [shop]. *)
Definition admin_loaded : Feedback.State :=
  ui (Feedback.mount Feedback.initial (world_of shop)).

Definition customer : Profile.State :=
  {| Profile.user := Some {| Profile.id := "u1"; Profile.email := Some "ada@example.com" |};
     Profile.feedbackData := {| Profile.rating := 5; Profile.comment := "Great shop" |};
     Profile.submittedFeedback := [];
     Profile.loading := false |}.

Definition customer_empty_comment : Profile.State :=
  {| Profile.user := Some {| Profile.id := "u1"; Profile.email := Some "ada@example.com" |};
     Profile.feedbackData := {| Profile.rating := 5; Profile.comment := "" |};
     Profile.submittedFeedback := [];
     Profile.loading := false |}.

(** A shop whose only feedback row is not approved yet. *)
Definition pending_shop : Backend :=
  {| feedback_table := [f3];
     profiles_table := [ada; bea];
     products_table := [glow_serum; unnamed_product];
     gen_random_uuid := uuid;
     fault := λ _ _, NoFault |}.

(** The sample shop where every batched profile lookup answers with an
    error. *)
Definition profiles_down_shop : Backend :=
  {| feedback_table := [f1; f2; f3];
     profiles_table := [ada; bea];
     products_table := [glow_serum; unnamed_product];
     gen_random_uuid := uuid;
     fault := λ _ r, match r with
                     | SelectProfilesIn _ => ReturnsError "permission denied"
                     | _ => NoFault
                     end |}.

(** A visitor who is not signed in, with a comment typed. *)
Definition anonymous_visitor : Profile.State :=
  {| Profile.user := None;
     Profile.feedbackData := {| Profile.rating := 4; Profile.comment := "Nice" |};
     Profile.submittedFeedback := [];
     Profile.loading := false |}.

End Sample.


(** * Properties *)

Import Supabase Async.

(** ** Running the monad *)

Section monad_facts.
Context {S A B : Type}.

Lemma bind_returned (m : M S A) (f : A → M S B) s w a :
  outcome (m s w) = Returned a →
  bind m f s w =
    mkRun (outcome (f a (ui (m s w)) (world (m s w))))
          (ui (f a (ui (m s w)) (world (m s w))))
          (world (f a (ui (m s w)) (world (m s w))))
          (events (m s w) ++ events (f a (ui (m s w)) (world (m s w)))).
Proof.
  unfold bind. destruct (m s w) as [o s1 w1 evs1]; cbn. intros ->.
  by destruct (f a s1 w1).
Qed.

Lemma bind_threw (m : M S A) (f : A → M S B) s w e :
  outcome (m s w) = Threw e →
  bind m f s w = mkRun (Threw e) (ui (m s w)) (world (m s w)) (events (m s w)).
Proof.
  unfold bind. destruct (m s w) as [o s1 w1 evs1]; cbn. by intros ->.
Qed.
End monad_facts.

(** Case analysis on the fault of the request at the head of the goal. *)
Ltac fault_cases :=
  match goal with
  | |- context [fault ?b ?n ?r] =>
      let F := fresh "Hfault" in destruct (fault b n r) eqn:F
  end.

(** ** The components on the sample shop *)

(** Three feedback rows with ratings 5, 4 and 3, the first two approved:
    the testimonial view shows the two approved rows, newest first. *)
Example sample_testimonials :
  TestimonialSection.testimonials
    (ui (TestimonialSection.fetchApprovedFeedback TestimonialSection.initial
           (Sample.world_of Sample.shop)))
  = [ {| TestimonialSection.id := "f2";
         TestimonialSection.author := "Bea Lund";
         TestimonialSection.role := Some "on TommyFX Beauty";
         TestimonialSection.content := "Good";
         TestimonialSection.rating := 4;
         TestimonialSection.product_name := None;
         TestimonialSection.date := Some (TestimonialSection.toLocaleDateString 500) |};
      {| TestimonialSection.id := "f1";
         TestimonialSection.author := "Ada Okafor";
         TestimonialSection.role := Some "on Glow Serum";
         TestimonialSection.content := "Lovely";
         TestimonialSection.rating := 5;
         TestimonialSection.product_name := Some "Glow Serum";
         TestimonialSection.date := Some (TestimonialSection.toLocaleDateString 300) |} ].
Proof. vm_compute. reflexivity. Qed.

Example sample_testimonials_trace :
  events (TestimonialSection.fetchApprovedFeedback TestimonialSection.initial
            (Sample.world_of Sample.shop))
  = [SetState "setLoading";
     Remote (SelectFeedback TestimonialSection.approved_query);
     Remote (SelectProfilesIn ["u2"; "u1"]);
     SetState "setTestimonials";
     SetState "setLoading"].
Proof. vm_compute. reflexivity. Qed.

Example sample_admin_names :
  (λ item, (Feedback.id item, Feedback.name item, Feedback.approved item))
    <$> Feedback.feedback Sample.admin_loaded
  = [("f2", "Bea Lund", true); ("f3", "Anonymous User", false); ("f1", "Ada Okafor", true)].
Proof. vm_compute. reflexivity. Qed.

Example sample_approve_trace :
  events (Feedback.updateFeedbackStatus "f3" true Sample.admin_loaded
            (Sample.world_of Sample.read_only_shop))
  = [SetState "setUpdating";
     Remote (UpdateFeedback "f3" true);
     SetState "setFeedback";
     Toast (Feedback.warning_of (Feedback.SetStatus "f3" true));
     SetState "setUpdating"].
Proof. vm_compute. reflexivity. Qed.

Example sample_submission :
  let r := Profile.handleFeedbackSubmit Sample.customer (Sample.world_of Sample.shop) in
  remote_requests (events r)
  = [InsertFeedback {| ins_user_id := "u1"; ins_rating := 5; ins_comment := "Great shop";
                       ins_approved := false; ins_created_at := 1000 |}] ∧
  FeedbackTable.approved <$> feedback_table (backend (world r))
  = [Js.Bool true; Js.Bool true; Js.Bool false; Js.Bool false] ∧
  Profile.comment (Profile.feedbackData (ui r)) = "".
Proof. vm_compute. done. Qed.

(** ** The moderator's mutations *)

Lemma reflects_set_status id a (l : list Feedback.FeedbackItem) :
  Feedback.reflects (Feedback.SetStatus id a) l (Feedback.with_approved_of id a <$> l).
Proof.
  split; [by rewrite length_fmap|].
  intros i x Hx. exists (Feedback.with_approved_of id a x).
  rewrite list_lookup_fmap, Hx. split; [done|].
  unfold Feedback.with_approved_of. by case_bool_decide.
Qed.

Lemma reflects_delete id (l : list Feedback.FeedbackItem) :
  Feedback.reflects (Feedback.Delete id) l (filter (λ item, Feedback.id item ≠ id) l).
Proof.
  split; [apply sublist_filter|].
  intros y. rewrite list_elem_of_filter. tauto.
Qed.

Ltac run_async :=
  unfold try_finally, try_catch, bind, spawn, toast, emit,
    update_feedback, delete_feedback, insert_feedback,
    select_feedback, select_profiles_in, select_profile_single, request;
  cbn.

(** What a mutation does, whatever the backend answers: the trace up to
    the toast, the toast, and the record list left in the state. *)
Lemma updateFeedbackStatus_run id a s w :
  let r := Feedback.updateFeedbackStatus id a s w in
  Feedback.feedback (ui r) = Feedback.with_approved_of id a <$> Feedback.feedback s ∧
  outcome r = Returned tt ∧
  ∃ t, events r =
         [SetState "setUpdating"; Remote (UpdateFeedback id a);
          SetState "setFeedback"; Toast t; SetState "setUpdating"] ∧
       (fault (backend w) (calls w) (UpdateFeedback id a) ≠ NoFault →
        t = Feedback.warning_of (Feedback.SetStatus id a)).
Proof.
  unfold Feedback.updateFeedbackStatus. run_async.
  fault_cases; cbn; (split; [done|]); (split; [done|]);
    eexists; (split; [reflexivity|]); done.
Qed.

Lemma deleteFeedback_run id s w :
  id ≠ "" →
  let r := Feedback.mutate (Feedback.Delete id) s w in
  Feedback.feedback (ui r) = filter (λ item, Feedback.id item ≠ id) (Feedback.feedback s) ∧
  outcome r = Returned tt ∧
  ∃ t, events r =
         [SetState "setFeedbackToDelete"; SetState "setDeleteDialogOpen";
          SetState "setUpdating"; Remote (DeleteFeedback id);
          SetState "setFeedback"; Toast t; SetState "setUpdating";
          SetState "setFeedbackToDelete"; SetState "setDeleteDialogOpen"] ∧
       (fault (backend w) (calls w) (DeleteFeedback id) ≠ NoFault →
        t = Feedback.warning_of (Feedback.Delete id)).
Proof.
  intros Hid. cbn.
  unfold Feedback.deleteFeedback, Feedback.handleDeleteClick. run_async.
  rewrite bool_decide_true by done. cbn.
  fault_cases; cbn; (split; [done|]); (split; [done|]);
    eexists; (split; [reflexivity|]); done.
Qed.

(** C1, as stated, fails: approving feedback [f3] on the loaded admin
    page issues the remote update first; the record list is installed
    only after the awaited response. *)
Lemma approve_installs_after_write :
  Feedback.install_precedes_write
    (events (Feedback.mutate (Feedback.SetStatus "f3" true)
               Sample.admin_loaded (Sample.world_of Sample.shop))) = false.
Proof. vm_compute. reflexivity. Qed.

(** C1 (amended): for every mutation handled by the admin page (approve,
    unapprove, or delete of a feedback record), the remote write is
    issued first and the new local record list reflecting the intended
    change is installed after the write has been answered, exactly once,
    whether the write succeeded or failed. *)
Theorem mutation_writes_then_installs (m : Feedback.Mutation) s w :
  m ≠ Feedback.Delete "" →
  let r := Feedback.mutate m s w in
  Feedback.write_precedes_install (events r) = true ∧
  Feedback.install_precedes_write (events r) = false ∧
  length (filter (λ e, Feedback.is_install "setFeedback" e = true) (events r)) = 1%nat ∧
  remote_requests (events r) = [Feedback.write_of m] ∧
  Feedback.reflects m (Feedback.feedback s) (Feedback.feedback (ui r)).
Proof.
  intros Hm. destruct m as [id a|id].
  - destruct (updateFeedbackStatus_run id a s w) as (Hl & _ & t & Hev & _).
    cbv zeta. change (Feedback.mutate (Feedback.SetStatus id a))
      with (Feedback.updateFeedbackStatus id a). rewrite Hev, Hl.
    split; [done|]. split; [done|]. split; [done|]. split; [done|].
    apply (reflects_set_status id a).
  - assert (id ≠ "") as Hid by congruence.
    destruct (deleteFeedback_run id s w Hid) as (Hl & _ & t & Hev & _).
    cbv zeta in Hl, Hev |- *. rewrite Hev, Hl.
    split; [done|]. split; [done|]. split; [done|]. split; [done|].
    apply (reflects_delete id).
Qed.

Lemma mutation_writes_then_installs_witness :
  Feedback.write_precedes_install
    (events (Feedback.mutate (Feedback.Delete "f1")
               Sample.admin_loaded (Sample.world_of Sample.shop))) = true.
Proof.
  apply (mutation_writes_then_installs (Feedback.Delete "f1")
           Sample.admin_loaded (Sample.world_of Sample.shop)).
  discriminate.
Defined.

(** C4: for every mutation whose remote write fails, the local record
    list still reflects the intended change (no rollback), exactly one
    toast is shown and it is the "UI updated, database might not be"
    warning; after a failed delete no record with the deleted
    identifier is in the local list. *)
Theorem failed_write_keeps_local_change (m : Feedback.Mutation) s w :
  m ≠ Feedback.Delete "" →
  fault (backend w) (calls w) (Feedback.write_of m) ≠ NoFault →
  let r := Feedback.mutate m s w in
  Feedback.reflects m (Feedback.feedback s) (Feedback.feedback (ui r)) ∧
  toasts (events r) = [Feedback.warning_of m] ∧
  variant (Feedback.warning_of m) = Destructive ∧
  outcome r = Returned tt ∧
  (∀ id, m = Feedback.Delete id →
         id ∉ Feedback.id <$> Feedback.feedback (ui r)).
Proof.
  intros Hm Hf. destruct m as [id a|id].
  - destruct (updateFeedbackStatus_run id a s w) as (Hl & Ho & t & Hev & Ht).
    cbv zeta. change (Feedback.mutate (Feedback.SetStatus id a))
      with (Feedback.updateFeedbackStatus id a). rewrite Hev, Hl, Ho. rewrite (Ht Hf).
    split; [apply (reflects_set_status id a)|]. by repeat split.
  - assert (id ≠ "") as Hid by congruence.
    destruct (deleteFeedback_run id s w Hid) as (Hl & Ho & t & Hev & Ht).
    cbv zeta in Hl, Hev, Ho |- *. rewrite Hev, Hl, Ho. rewrite (Ht Hf).
    split; [apply (reflects_delete id)|]. split; [done|]. split; [done|]. split; [done|].
    intros id' [= <-]. rewrite list_elem_of_fmap. intros (y & Hy & Hin).
    apply list_elem_of_filter in Hin as [Hne _]. by apply Hne.
Qed.

Lemma failed_write_keeps_local_change_witness :
  toasts (events (Feedback.mutate (Feedback.Delete "f1")
                    Sample.admin_loaded (Sample.world_of Sample.read_only_shop)))
  = [Feedback.warning_of (Feedback.Delete "f1")].
Proof.
  apply (failed_write_keeps_local_change (Feedback.Delete "f1")
           Sample.admin_loaded (Sample.world_of Sample.read_only_shop)).
  - discriminate.
  - vm_compute. discriminate.
Defined.

(** ** The feedback form *)

(** C9: a submission with an empty comment is stopped by the validation
    before any remote call: the error toast is shown at once, no request
    is issued and the world (the remote store included) is unchanged. *)
Theorem empty_comment_never_reaches_backend s w :
  Profile.comment (Profile.feedbackData s) = "" →
  let r := Profile.handleFeedbackSubmit s w in
  events r = [Toast {| title := "Comment required";
                       description := "Please provide your feedback";
                       variant := Destructive |}] ∧
  remote_requests (events r) = [] ∧
  world r = w ∧
  ui r = s ∧
  outcome r = Returned tt.
Proof.
  intros Hc. unfold Profile.handleFeedbackSubmit. run_async.
  rewrite Hc. cbn. done.
Qed.

Lemma empty_comment_never_reaches_backend_witness :
  world (Profile.handleFeedbackSubmit Sample.customer_empty_comment
           (Sample.world_of Sample.shop)) = Sample.world_of Sample.shop.
Proof.
  apply (empty_comment_never_reaches_backend Sample.customer_empty_comment
           (Sample.world_of Sample.shop)).
  reflexivity.
Defined.

(** What a submission does to the backend: nothing, or one inserted row
    whose approval flag is [false]. *)
Lemma handleFeedbackSubmit_run s w :
  let r := Profile.handleFeedbackSubmit s w in
  outcome r = Returned tt ∧
  ((backend (world r) = backend w ∧
    Forall (λ q, is_feedback_write q = true →
                 ∃ p, q = InsertFeedback p ∧ ins_approved p = false)
           (remote_requests (events r))) ∨
   ∃ p, ins_approved p = false ∧
        ins_comment p = Profile.comment (Profile.feedbackData s) ∧
        remote_requests (events r) = [InsertFeedback p] ∧
        backend (world r) = exec_insert (backend w) (calls w) p).
Proof.
  unfold Profile.handleFeedbackSubmit. run_async.
  destruct (bool_decide _); cbn; [|split; [done|left; split; [done|constructor]]].
  destruct (Profile.user s) as [u|]; cbn; [|split; [done|left; split; [done|constructor]]].
  unfold Profile.new_Date; cbn.
  fault_cases; cbn.
  - split; [done|]. right.
    refine (ex_intro _ _ (conj _ (conj _ (conj eq_refl _)))); reflexivity.
  - split; [done|]. left. split; [done|]. constructor; [|constructor].
    intros _. eexists. split; reflexivity.
  - split; [done|]. left. split; [done|]. constructor; [|constructor].
    intros _. eexists. split; reflexivity.
Qed.

(** ** Loops *)

Section for_of_facts.
Context {S A B : Type} (body : list B → A → M S (list B)).
Context (Q : A → B → Prop) (ev : A → list Event) (b : Backend).

Hypothesis body_spec : ∀ acc x s w,
  backend w = b →
  ∃ y, outcome (body acc x s w) = Returned (acc ++ [y]) ∧ Q x y ∧
       ui (body acc x s w) = s ∧
       backend (world (body acc x s w)) = b ∧
       events (body acc x s w) = ev x.

(** A loop whose body pushes one element per iteration, leaves the
    component state and the backend alone, and emits [ev x]. *)
Lemma for_of_push xs : ∀ acc s w,
  backend w = b →
  ∃ ys, outcome (for_of xs acc body s w) = Returned (acc ++ ys) ∧
        Forall2 Q xs ys ∧
        ui (for_of xs acc body s w) = s ∧
        backend (world (for_of xs acc body s w)) = b ∧
        events (for_of xs acc body s w) = xs ≫= ev.
Proof.
  induction xs as [|x xs IH]; intros acc s w Hb.
  - exists []. cbn. rewrite app_nil_r. repeat split; [constructor|done].
  - destruct (body_spec acc x s w Hb) as (y & Ho & HQ & Hu & Hb' & He).
    destruct (IH (acc ++ [y]) s (world (body acc x s w)) Hb')
      as (ys & Ho2 & HQ2 & Hu2 & Hb2 & He2).
    exists (y :: ys). cbn [for_of]. rewrite (bind_returned _ _ _ _ _ Ho). cbn.
    rewrite Hu, Ho2, Hu2, Hb2, He2, He, <- app_assoc.
    repeat split. by constructor.
Qed.
End for_of_facts.

Section for_of_backend.
Context {S A : Type} (body : unit → A → M S unit).

Hypothesis body_backend : ∀ acc x s w,
  backend (world (body acc x s w)) = backend w.

Lemma for_of_keeps_backend xs : ∀ s w,
  backend (world (for_of xs tt body s w)) = backend w.
Proof.
  induction xs as [|x xs IH]; intros s w; [done|].
  cbn [for_of]. unfold bind.
  pose proof (body_backend tt x s w) as Hb.
  destruct (body tt x s w) as [[[]|e] s1 w1 evs1]; cbn in Hb; [|done].
  specialize (IH s1 w1).
  destruct (for_of xs tt body s1 w1) as [o2 s2 w2 evs2]; cbn in IH |- *.
  congruence.
Qed.
End for_of_backend.

(** ** The admin page: loading *)

Lemma filter_profile_absent (l : list Profiles.row) u :
  u ∉ Profiles.id <$> l → filter (λ p, Profiles.id p = u) l = [].
Proof.
  intros Hu. induction l as [|p l IH]; [done|].
  rewrite fmap_cons, not_elem_of_cons in Hu. destruct Hu as [Hne Hu].
  rewrite filter_cons_False by congruence. auto.
Qed.

Lemma lookup_user_spec item s w :
  ∃ n e,
    outcome (Feedback.lookup_user item s w) = Returned (n, e) ∧
    (Feedback.unresolved (backend w) item → n = "Anonymous User" ∧ e = "No Email") ∧
    ui (Feedback.lookup_user item s w) = s ∧
    backend (world (Feedback.lookup_user item s w)) = backend w ∧
    events (Feedback.lookup_user item s w) = Feedback.lookup_events item.
Proof.
  unfold Feedback.lookup_user, Feedback.lookup_events, Feedback.unresolved.
  destruct (user_id item) as [u|]; cbn; [|by eexists _, _].
  case_bool_decide; cbn; [|by eexists _, _].
  run_async. fault_cases; cbn.
  - unfold exec_select_profile_single.
    destruct (filter _ (profiles_table (backend w))) as [|p [|p' l]] eqn:Hflt; cbn;
      (eexists _, _; split; [reflexivity|]; split; [|done]); try done.
    intros [Habs|Hk]; [|by apply Hk in Hfault].
    apply filter_profile_absent in Habs. congruence.
  - eexists _, _; split; [reflexivity|]; split; [|done]. done.
  - eexists _, _; split; [reflexivity|]; split; [|done]. done.
Qed.

Lemma process_spec (b : Backend) acc item s w :
  backend w = b →
  ∃ y, outcome (Feedback.process acc item s w) = Returned (acc ++ [y]) ∧
       Feedback.pushed_for b item y ∧
       ui (Feedback.process acc item s w) = s ∧
       backend (world (Feedback.process acc item s w)) = b ∧
       events (Feedback.process acc item s w) = Feedback.lookup_events item.
Proof.
  intros <-. destruct (lookup_user_spec item s w) as (n & e & Ho & Hf & Hu & Hb & He).
  exists (Feedback.to_item item n e). unfold Feedback.process.
  rewrite (bind_returned _ _ _ _ _ Ho). cbn. rewrite Hu, Hb, He, app_nil_r.
  repeat split; try done. by exists n, e.
Qed.

#[local] Arguments exec_select_feedback : simpl never.
#[local] Arguments exec_select_profiles_in : simpl never.

(** The admin load, whatever the backend answers. *)
Lemma fetchFeedback_run s w :
  let r := Feedback.fetchFeedback s w in
  let q := SelectFeedback Feedback.all_query in
  outcome r = Returned tt ∧
  backend (world r) = backend w ∧
  Feedback.loading (ui r) = false ∧
  match fault (backend w) (calls w) q with
  | NoFault =>
      Forall2 (Feedback.pushed_for (backend w))
        (exec_select_feedback (backend w) Feedback.all_query)
        (Feedback.feedback (ui r)) ∧
      events r =
        Remote q ::
        (exec_select_feedback (backend w) Feedback.all_query ≫= Feedback.lookup_events)
        ++ [SetState "setFeedback"; SetState "setLoading"]
  | _ =>
      Feedback.feedback (ui r) = Feedback.feedback s ∧
      events r = [Remote q; Toast Feedback.error_toast; SetState "setLoading"]
  end.
Proof.
  intros r q.
  assert (∃ o s1 w1 evs1, r = mkRun o s1 w1 evs1) as (o & s1 & w1 & evs1 & Hr)
    by (destruct r; by eexists _, _, _, _).
  revert Hr. subst r q. unfold Feedback.fetchFeedback. run_async.
  fault_cases; cbn.
  - destruct (for_of_push Feedback.process (Feedback.pushed_for (backend w))
                Feedback.lookup_events (backend w)
                (λ acc x s0 w0, process_spec (backend w) acc x s0 w0)
                (exec_select_feedback (backend w) Feedback.all_query) [] s
                (served w (backend w)) eq_refl)
      as (ys & Ho & HQ & Hu & Hb & He).
    destruct (for_of _ [] Feedback.process s (served w (backend w)))
      as [o2 s2 w2 evs2]; cbn in Ho, Hu, Hb, He; subst; cbn.
    intros [= <- <- <- <-]. done.
  - intros [= <- <- <- <-]. done.
  - intros [= <- <- <- <-]. done.
Qed.

(** ** The testimonial view: loading *)

#[local] Arguments TestimonialSection.userIds_of : simpl never.
#[local] Arguments TestimonialSection.resolve_author : simpl never.
#[local] Arguments TestimonialSection.profileMap_of : simpl never.
#[local] Arguments TestimonialSection.to_testimonial : simpl never.

Lemma userIds_of_nil : TestimonialSection.userIds_of [] = [].
Proof. reflexivity. Qed.

(** The testimonial load, whatever the backend answers. *)
Lemma fetchApprovedFeedback_run s w :
  let r := TestimonialSection.fetchApprovedFeedback s w in
  let b := backend w in
  let q := SelectFeedback TestimonialSection.approved_query in
  let data := exec_select_feedback b TestimonialSection.approved_query in
  let plain := TestimonialSection.to_testimonial <$> data in
  outcome r = Returned tt ∧
  backend (world r) = b ∧
  TestimonialSection.loading (ui r) = false ∧
  match fault b (calls w) q with
  | NoFault =>
      match TestimonialSection.userIds_of data with
      | [] =>
          TestimonialSection.testimonials (ui r) = plain ∧
          remote_requests (events r) = [q] ∧ toasts (events r) = []
      | ids =>
          let p := SelectProfilesIn ids in
          remote_requests (events r) = [q; p] ∧
          match fault b (S (calls w)) p with
          | NoFault =>
              TestimonialSection.testimonials (ui r) =
                TestimonialSection.resolve_author data
                  (TestimonialSection.profileMap_of (exec_select_profiles_in b ids))
                <$> plain ∧
              toasts (events r) = []
          | ReturnsError _ =>
              TestimonialSection.testimonials (ui r) = plain ∧
              toasts (events r) = []
          | Rejects _ =>
              TestimonialSection.testimonials (ui r) = [] ∧
              toasts (events r) = [TestimonialSection.error_toast]
          end
      end
  | _ =>
      TestimonialSection.testimonials (ui r) = [] ∧
      remote_requests (events r) = [q] ∧
      toasts (events r) = [TestimonialSection.error_toast]
  end.
Proof.
  cbv zeta. unfold TestimonialSection.fetchApprovedFeedback. run_async.
  fault_cases; cbn; [|done|done].
  destruct (exec_select_feedback (backend w) TestimonialSection.approved_query)
    as [|d data] eqn:Hdata; cbn; [by rewrite userIds_of_nil|].
  destruct (TestimonialSection.userIds_of (d :: data)) as [|u ids] eqn:Hids; cbn; [done|].
  fault_cases; cbn; done.
Qed.

(** ** What the backend selects *)

#[local] Instance newer_first_total : Total newer_first.
Proof. intros x y. unfold newer_first. lia. Qed.

#[local] Instance newer_first_trans : Transitive newer_first.
Proof. intros x y z. unfold newer_first. lia. Qed.

Lemma StronglySorted_take {A} (R : relation A) n (l : list A) :
  StronglySorted R l → StronglySorted R (take n l).
Proof.
  intros Hl. rewrite <- (take_drop n l) in Hl.
  by apply StronglySorted_app_1_l in Hl.
Qed.

Lemma selected_sorted b q : StronglySorted newer_first (selected b q).
Proof.
  unfold selected, limited. pose proof (StronglySorted_merge_sort newer_first
    (matching q (feedback_table b))) as Hs.
  destruct (limit q); [by apply StronglySorted_take|done].
Qed.

Lemma selected_elem_of b q rec :
  rec ∈ selected b q →
  rec ∈ feedback_table b ∧
  ∀ v, eq_approved q = Some v → FeedbackTable.approved rec = Js.Bool v.
Proof.
  unfold selected, limited, matching. intros Hin.
  assert (rec ∈ merge_sort newer_first
            match eq_approved q with
            | Some v => filter (λ r, FeedbackTable.approved r = Js.Bool v) (feedback_table b)
            | None => feedback_table b
            end) as Hin'.
  { destruct (limit q); [by eapply subseteq_take|done]. }
  rewrite merge_sort_Permutation in Hin'.
  destruct (eq_approved q) as [v|].
  - apply list_elem_of_filter in Hin' as [Hv Hin']. split; [done|]. by intros ? [= <-].
  - split; [done|]. discriminate.
Qed.

Lemma selected_length b q n : limit q = Some n → (length (selected b q) ≤ n)%nat.
Proof. unfold selected, limited. intros ->. rewrite length_take. lia. Qed.

Lemma selected_NoDup b q :
  NoDup (FeedbackTable.id <$> feedback_table b) →
  NoDup (FeedbackTable.id <$> selected b q).
Proof.
  intros Hnd. unfold selected, limited, matching.
  assert (NoDup (FeedbackTable.id <$> merge_sort newer_first
            match eq_approved q with
            | Some v => filter (λ r, FeedbackTable.approved r = Js.Bool v) (feedback_table b)
            | None => feedback_table b
            end)) as Hs.
  { rewrite merge_sort_Permutation. destruct (eq_approved q); [|done].
    eapply sublist_NoDup; [done|]. apply fmap_sublist, sublist_filter. }
  destruct (limit q); [|done].
  eapply sublist_NoDup; [done|]. apply fmap_sublist, sublist_take.
Qed.

(** ** Secondary lookups *)

Lemma profile_lookups_app evs1 evs2 :
  profile_lookups (evs1 ++ evs2) = profile_lookups evs1 ++ profile_lookups evs2.
Proof. unfold profile_lookups, remote_requests. by rewrite omap_app, filter_app. Qed.

Lemma profile_lookups_loop (rows : list FeedbackRow) :
  profile_lookups (rows ≫= Feedback.lookup_events) =
  SelectProfileSingle <$> Feedback.referenced rows.
Proof.
  induction rows as [|row rows IH]; [done|].
  rewrite bind_cons, profile_lookups_app, IH.
  unfold Feedback.referenced, Feedback.lookup_events. cbn.
  destruct (user_id row) as [u|]; cbn; [|done].
  by case_bool_decide.
Qed.

Lemma profile_lookups_of_requests evs :
  profile_lookups evs = filter (λ r, is_profile_lookup r = true) (remote_requests evs).
Proof. done. Qed.

(** C2, as stated, fails on the admin page: loading the three rows of
    the sample shop, two of which carry an identity reference, issues
    two lookups on [profiles], one per row. *)
Lemma admin_load_looks_up_each_row :
  profile_lookups
    (events (Feedback.fetchFeedback Feedback.initial (Sample.world_of Sample.shop)))
  = [SelectProfileSingle "u2"; SelectProfileSingle "u1"] ∧
  ¬ (length (profile_lookups
       (events (Feedback.fetchFeedback Feedback.initial (Sample.world_of Sample.shop))))
     ≤ 1)%nat.
Proof. split; [by vm_compute|]. vm_compute. lia. Qed.

(** C2 (amended): every run of the testimonial view's pipeline issues at
    most one secondary lookup, a single batched IN query over the
    non-null identity references of the returned rows, however many rows
    carry one; every run of the admin page's pipeline issues one
    single-row lookup per returned row that carries a non-empty identity
    reference. *)
Theorem secondary_lookups_per_run s w s' w' :
  let r := TestimonialSection.fetchApprovedFeedback s w in
  let data := exec_select_feedback (backend w) TestimonialSection.approved_query in
  let r' := Feedback.fetchFeedback s' w' in
  let rows := exec_select_feedback (backend w') Feedback.all_query in
  ((length (profile_lookups (events r)) ≤ 1)%nat ∧
   profile_lookups (events r) =
     match fault (backend w) (calls w) (SelectFeedback TestimonialSection.approved_query),
           TestimonialSection.userIds_of data with
     | NoFault, _ :: _ => [SelectProfilesIn (TestimonialSection.userIds_of data)]
     | _, _ => []
     end ∧
   ∀ u, u ∈ TestimonialSection.userIds_of data ↔
        ∃ row, row ∈ data ∧ user_id row = Some u) ∧
  profile_lookups (events r') =
    match fault (backend w') (calls w') (SelectFeedback Feedback.all_query) with
    | NoFault => SelectProfileSingle <$> Feedback.referenced rows
    | _ => []
    end.
Proof.
  cbv zeta. split.
  - assert (profile_lookups (events (TestimonialSection.fetchApprovedFeedback s w)) =
      match fault (backend w) (calls w) (SelectFeedback TestimonialSection.approved_query),
            TestimonialSection.userIds_of
              (exec_select_feedback (backend w) TestimonialSection.approved_query) with
      | NoFault, _ :: _ =>
          [SelectProfilesIn (TestimonialSection.userIds_of
             (exec_select_feedback (backend w) TestimonialSection.approved_query))]
      | _, _ => []
      end) as Heq.
    { destruct (fetchApprovedFeedback_run s w) as (_ & _ & _ & H).
      cbv zeta in H. rewrite profile_lookups_of_requests.
      destruct (fault (backend w) (calls w) _);
        [|by destruct H as (_ & -> & _)|by destruct H as (_ & -> & _)].
      destruct (TestimonialSection.userIds_of _) as [|u ids];
        [by destruct H as (_ & -> & _)|].
      destruct H as (-> & _). done. }
    split; [|split; [done|]].
    + rewrite Heq. destruct (fault _ _ _); cbn; try lia.
      destruct (TestimonialSection.userIds_of _); cbn; lia.
    + intros u. unfold TestimonialSection.userIds_of. apply list_elem_of_omap.
  - destruct (fetchFeedback_run s' w') as (_ & _ & _ & H). cbv zeta in H.
    destruct (fault (backend w') (calls w') _); [|by destruct H as (_ & ->)..].
    destruct H as (_ & ->).
    change (Remote ?q :: ?l ++ ?t) with ([Remote q] ++ l ++ t).
    rewrite !profile_lookups_app, profile_lookups_loop. cbn. by rewrite app_nil_r.
Qed.

(** ** A failing primary query *)

Lemma spawn_returned {S} (m : M S unit) s w :
  outcome (m s w) = Returned tt → spawn m s w = m s w.
Proof.
  unfold spawn, try_catch. destruct (m s w) as [[a|e] s1 w1 evs1]; cbn; [done|].
  discriminate.
Qed.

Lemma admin_mount_eq s w :
  let r := Feedback.fetchFeedback (ui (Feedback.setLoading true s w)) w in
  Feedback.mount s w = mkRun (outcome r) (ui r) (world r) (SetState "setLoading" :: events r).
Proof.
  cbv zeta. unfold Feedback.mount, bind. cbn.
  rewrite spawn_returned by apply fetchFeedback_run.
  by destruct (Feedback.fetchFeedback _ w).
Qed.

(** C5, as stated, fails on the admin page: pressing Refresh on the
    loaded page while the select on [feedback] fails leaves the three
    loaded records in the list; the installed list is not empty. *)
Lemma failed_refresh_keeps_records :
  Feedback.feedback
    (ui (Feedback.fetchFeedback Sample.admin_loaded (Sample.world_of Sample.unreachable_shop)))
  = Feedback.feedback Sample.admin_loaded ∧
  Feedback.feedback
    (ui (Feedback.fetchFeedback Sample.admin_loaded (Sample.world_of Sample.unreachable_shop)))
  ≠ [].
Proof. split; [by vm_compute|]. vm_compute. discriminate. Qed.

(** C5 (amended): when the primary query fails, the testimonial view
    installs the empty list and shows one error notification; the admin
    page shows one error notification and leaves its record list as it
    was (empty on the initial load); in both, the failure is caught
    inside the fetch and nothing is thrown to the caller. *)
Theorem failed_primary_query_is_contained s w s' :
  (∀ q, fault (backend w) (calls w) (SelectFeedback q) ≠ NoFault) →
  let r := TestimonialSection.fetchApprovedFeedback s w in
  let r' := Feedback.fetchFeedback s' w in
  (TestimonialSection.testimonials (ui r) = [] ∧
   toasts (events r) = [TestimonialSection.error_toast] ∧
   outcome r = Returned tt ∧
   spawn TestimonialSection.fetchApprovedFeedback s w = r) ∧
  (Feedback.feedback (ui r') = Feedback.feedback s' ∧
   toasts (events r') = [Feedback.error_toast] ∧
   outcome r' = Returned tt ∧
   spawn Feedback.fetchFeedback s' w = r' ∧
   Feedback.feedback (ui (Feedback.mount Feedback.initial w)) = []).
Proof.
  intros Hf. cbv zeta. split.
  - destruct (fetchApprovedFeedback_run s w) as (Ho & _ & _ & H). cbv zeta in H.
    pose proof (Hf TestimonialSection.approved_query) as Hq.
    destruct (fault (backend w) (calls w) _); [done|..];
      destruct H as (-> & _ & ->); rewrite Ho;
      (repeat split; [by apply spawn_returned]).
  - destruct (fetchFeedback_run s' w) as (Ho & _ & _ & H). cbv zeta in H.
    pose proof (Hf Feedback.all_query) as Hq.
    assert (Feedback.feedback (ui (Feedback.mount Feedback.initial w)) = []) as Hm.
    { rewrite admin_mount_eq. cbn [ui].
      destruct (fetchFeedback_run (ui (Feedback.setLoading true Feedback.initial w)) w)
        as (_ & _ & _ & H0). cbv zeta in H0.
      destruct (fault (backend w) (calls w) _); [done|..]; by destruct H0 as (-> & _). }
    destruct (fault (backend w) (calls w) _); [done|..];
      destruct H as (-> & ->); rewrite Ho;
      (repeat split; [by apply spawn_returned|done]).
Qed.

Lemma failed_primary_query_is_contained_witness :
  TestimonialSection.testimonials
    (ui (TestimonialSection.fetchApprovedFeedback TestimonialSection.initial
           (Sample.world_of Sample.unreachable_shop))) = [].
Proof.
  apply (failed_primary_query_is_contained TestimonialSection.initial
           (Sample.world_of Sample.unreachable_shop) Sample.admin_loaded).
  intros q. vm_compute. discriminate.
Defined.

(** ** The approval flag shown by the admin page *)

(** C10: after a served load of the admin page, the [approved] field of
    every record is the boolean [raw === true] of the stored value:
    [true] for the literal [true], [false] for anything else ([null],
    [undefined], [false], or a truthy value that is not a boolean). *)
Theorem admin_approved_is_strict_boolean s w :
  fault (backend w) (calls w) (SelectFeedback Feedback.all_query) = NoFault →
  let r := Feedback.fetchFeedback s w in
  Forall2
    (λ rec item,
       Feedback.id item = FeedbackTable.id rec ∧
       Feedback.approved item =
         match FeedbackTable.approved rec with
         | Js.Bool true => true
         | Js.Bool false | Js.Undefined | Js.Null | Js.Number _ | Js.String _ => false
         end)
    (selected (backend w) Feedback.all_query)
    (Feedback.feedback (ui r)).
Proof.
  intros Hf. cbv zeta.
  destruct (fetchFeedback_run s w) as (_ & _ & _ & H). cbv zeta in H.
  rewrite Hf in H. destruct H as [H _].
  unfold exec_select_feedback in H.
  apply (Forall2_fmap_l (select_row (backend w) Feedback.all_query)) in H.
  eapply Forall2_impl; [exact H|].
  intros rec item (n & e & -> & _). cbn. split; [done|].
  by destruct (FeedbackTable.approved rec) as [| |[|]| |].
Qed.

Lemma admin_approved_is_strict_boolean_witness :
  Forall2
    (λ rec item,
       Feedback.id item = FeedbackTable.id rec ∧
       Feedback.approved item =
         match FeedbackTable.approved rec with
         | Js.Bool true => true
         | Js.Bool false | Js.Undefined | Js.Null | Js.Number _ | Js.String _ => false
         end)
    (selected (backend (Sample.world_of Sample.shop)) Feedback.all_query)
    (Feedback.feedback (ui (Feedback.fetchFeedback Feedback.initial (Sample.world_of Sample.shop)))).
Proof.
  apply (admin_approved_is_strict_boolean Feedback.initial (Sample.world_of Sample.shop)).
  reflexivity.
Defined.

(** ** Display names *)

Lemma find_by_id (data : list FeedbackRow) (row : FeedbackRow) :
  NoDup (Supabase.id <$> data) → row ∈ data →
  List.find (λ item, bool_decide (Supabase.id item = Supabase.id row)) data = Some row.
Proof.
  induction data as [|d data IH]; intros Hnd Hin; [by apply elem_of_nil in Hin|].
  rewrite fmap_cons in Hnd. apply NoDup_cons in Hnd as [Hd Hnd].
  cbn. case_bool_decide as Heq.
  - apply elem_of_cons in Hin as [->|Hin]; [done|].
    exfalso. apply Hd. rewrite Heq. apply list_elem_of_fmap. by exists row.
  - apply elem_of_cons in Hin as [->|Hin]; [done|]. by apply IH.
Qed.

Lemma profileMap_of_lookup (l : list Profiles.row) u p :
  TestimonialSection.profileMap_of l !! u = Some p → p ∈ l ∧ Profiles.id p = u.
Proof.
  unfold TestimonialSection.profileMap_of.
  assert (∀ m : gmap string Profiles.row,
            foldl (λ m profile, <[Profiles.id profile := profile]> m) m l !! u = Some p →
            (p ∈ l ∧ Profiles.id p = u) ∨ m !! u = Some p) as Hgen.
  { induction l as [|x l IH]; intros m Hm; [by right|].
    cbn in Hm. apply IH in Hm as [[Hin Hid]|Hm].
    - left. split; [by apply list_elem_of_further|done].
    - destruct (decide (Profiles.id x = u)) as [Heq|Hne].
      + rewrite Heq, lookup_insert_eq in Hm. injection Hm as ->.
        left. split; [apply list_elem_of_here|done].
      + rewrite lookup_insert_ne in Hm by done. by right. }
  intros Hm. apply Hgen in Hm as [?|Hm]; [done|]. by rewrite lookup_empty in Hm.
Qed.

Lemma resolve_author_unresolved b ids (data : list FeedbackRow) (row : FeedbackRow) :
  NoDup (Supabase.id <$> data) → row ∈ data →
  match user_id row with
  | None => True
  | Some u => u ∉ Profiles.id <$> profiles_table b
  end →
  TestimonialSection.resolve_author data
    (TestimonialSection.profileMap_of (exec_select_profiles_in b ids))
    (TestimonialSection.to_testimonial row)
  = TestimonialSection.to_testimonial row.
Proof.
  intros Hnd Hin Hu. unfold TestimonialSection.resolve_author.
  change (TestimonialSection.id (TestimonialSection.to_testimonial row))
    with (Supabase.id row).
  rewrite (find_by_id data row Hnd Hin).
  destruct (user_id row) as [u|]; cbn; [|done].
  case_bool_decide; [|done].
  destruct (_ !! u) as [p|] eqn:Hp; [|done].
  apply profileMap_of_lookup in Hp as [Hp Hid]. exfalso. apply Hu.
  apply list_elem_of_filter in Hp as [_ Hp].
  apply list_elem_of_fmap. by exists p.
Qed.

Lemma selected_row_ids b q :
  Supabase.id <$> exec_select_feedback b q = FeedbackTable.id <$> selected b q.
Proof. unfold exec_select_feedback. by rewrite <- list_fmap_compose. Qed.

(** C6: a row whose identity reference is null, or is carried by no
    profile, or whose lookup fails, is displayed under the fixed
    placeholder: "Anonymous Customer" in the testimonial view,
    "Anonymous User" with "No Email" on the admin page. The display name
    is a string in both records, so it is never null or undefined.
    Feedback identifiers are the primary key of the table. *)
Theorem unresolved_identity_shows_placeholder s w s' :
  NoDup (FeedbackTable.id <$> feedback_table (backend w)) →
  let r := TestimonialSection.fetchApprovedFeedback s w in
  let data := exec_select_feedback (backend w) TestimonialSection.approved_query in
  let r' := Feedback.fetchFeedback s' w in
  let rows := exec_select_feedback (backend w) Feedback.all_query in
  (∀ (i : nat) row t,
     data !! i = Some row →
     TestimonialSection.testimonials (ui r) !! i = Some t →
     TestimonialSection.unresolved (backend w) row →
     TestimonialSection.id t = Supabase.id row ∧
     TestimonialSection.author t = "Anonymous Customer") ∧
  (fault (backend w) (calls w) (SelectFeedback Feedback.all_query) = NoFault →
   ∀ (i : nat) row item,
     rows !! i = Some row →
     Feedback.feedback (ui r') !! i = Some item →
     Feedback.unresolved (backend w) row →
     Feedback.id item = Supabase.id row ∧
     Feedback.name item = "Anonymous User" ∧
     Feedback.email item = "No Email").
Proof.
  intros Hnd. cbv zeta. split.
  - intros i row t Hrow Ht Hun.
    destruct (fetchApprovedFeedback_run s w) as (_ & _ & _ & H). cbv zeta in H.
    assert (NoDup (Supabase.id <$>
              exec_select_feedback (backend w) TestimonialSection.approved_query)) as Hnd'.
    { rewrite selected_row_ids. by apply selected_NoDup. }
    assert (row ∈ exec_select_feedback (backend w) TestimonialSection.approved_query)
      as Hin by (by eapply list_elem_of_lookup_2).
    assert (∀ l, l = TestimonialSection.to_testimonial <$>
                   exec_select_feedback (backend w) TestimonialSection.approved_query →
                 l !! i = Some t → t = TestimonialSection.to_testimonial row) as Hplain.
    { intros l -> Hl. rewrite list_lookup_fmap, Hrow in Hl. by injection Hl. }
    destruct (fault (backend w) (calls w) _);
      [|destruct H as (H & _); by rewrite H in Ht..].
    destruct (TestimonialSection.userIds_of _) as [|u0 ids].
    { destruct H as (H & _). by rewrite (Hplain _ H Ht). }
    destruct H as (_ & H). cbv zeta in H.
    destruct (fault (backend w) (S (calls w)) _) eqn:Hf2.
    + destruct H as (H & _). rewrite H, !list_lookup_fmap, Hrow in Ht.
      injection Ht as <-. unfold TestimonialSection.unresolved in Hun.
      rewrite (resolve_author_unresolved (backend w) (u0 :: ids) _ row Hnd' Hin); [done|].
      destruct (user_id row) as [u|]; [|done].
      destruct Hun as [Habs|Hk]; [done|]. by apply Hk in Hf2.
    + destruct H as (H & _). by rewrite (Hplain _ H Ht).
    + destruct H as (H & _). by rewrite H in Ht.
  - intros Hf i row item Hrow Hitem Hun.
    destruct (fetchFeedback_run s' w) as (_ & _ & _ & H). cbv zeta in H.
    rewrite Hf in H. destruct H as [H _].
    destruct (Forall2_lookup_lr _ _ _ _ _ _ H Hrow Hitem) as (n & e & -> & Hne).
    destruct (Hne Hun) as [-> ->]. done.
Qed.

Lemma unresolved_identity_shows_placeholder_witness :
  ∃ t, TestimonialSection.testimonials
         (ui (TestimonialSection.fetchApprovedFeedback TestimonialSection.initial
                (Sample.world_of Sample.shop4))) !! 2%nat = Some t ∧
       TestimonialSection.id t = "f4" ∧
       TestimonialSection.author t = "Anonymous Customer".
Proof.
  eexists. split; [vm_compute; reflexivity|].
  apply (proj1 (unresolved_identity_shows_placeholder TestimonialSection.initial
                  (Sample.world_of Sample.shop4) Feedback.initial
                  ltac:(apply (bool_decide_unpack _); vm_compute; exact I))
           2%nat (select_row Sample.shop4 TestimonialSection.approved_query Sample.f4)).
  - reflexivity.
  - vm_compute. reflexivity.
  - left. apply (bool_decide_unpack _). vm_compute. exact I.
Defined.

(** ** The public testimonial view *)

Lemma to_testimonial_displays b q rec :
  TestimonialSection.displays b rec (TestimonialSection.to_testimonial (select_row b q rec)).
Proof.
  unfold TestimonialSection.displays, TestimonialSection.to_testimonial,
    TestimonialSection.products_name, TestimonialSection.role_for. cbn.
  repeat split. destruct (join_products b _) as [p|]; cbn; [|done].
  by case_bool_decide.
Qed.

Lemma resolve_author_displays b rec data pm t :
  TestimonialSection.displays b rec t →
  TestimonialSection.displays b rec (TestimonialSection.resolve_author data pm t).
Proof.
  intros Ht. unfold TestimonialSection.resolve_author.
  destruct (List.find _ data) as [item|]; [|done].
  destruct (Js.truthy_str _); [|done].
  by destruct (pm !! _).
Qed.

Lemma plain_displays b q (recs : list FeedbackTable.row) :
  Forall2 (TestimonialSection.displays b) recs
    (TestimonialSection.to_testimonial <$> (select_row b q <$> recs)).
Proof.
  apply Forall2_fmap_r, Forall2_fmap_r, Forall_Forall2_diag, Forall_forall.
  intros rec _. apply to_testimonial_displays.
Qed.

(** C7, as stated, fails on the role string: the fourth row of the
    sample shop is attached to a product whose name is the empty string;
    its testimonial reads "on TommyFX Beauty", not "on " followed by the
    product name. *)
Lemma unnamed_product_role :
  ∃ t p,
    TestimonialSection.testimonials
      (ui (TestimonialSection.fetchApprovedFeedback TestimonialSection.initial
             (Sample.world_of Sample.shop4))) !! 2%nat = Some t ∧
    TestimonialSection.id t = FeedbackTable.id Sample.f4 ∧
    join_products Sample.shop4 (FeedbackTable.product_id Sample.f4) = Some p ∧
    TestimonialSection.role t = Some "on TommyFX Beauty" ∧
    TestimonialSection.role t ≠ Some ("on " +:+ name p).
Proof.
  eexists _, _. split; [vm_compute; reflexivity|].
  split; [reflexivity|]. split; [vm_compute; reflexivity|].
  split; [reflexivity|]. vm_compute. discriminate.
Qed.

(** C7 (amended): fetching the public testimonial view yields only
    stored rows with approved = true, ordered most-recent-first by
    creation timestamp, at most 10 of them; each testimonial's role
    string is "on <ProductName>" when a product with a non-empty name is
    attached and "on TommyFX Beauty" otherwise. *)
Theorem testimonials_are_newest_approved s w :
  let r := TestimonialSection.fetchApprovedFeedback s w in
  let ts := TestimonialSection.testimonials (ui r) in
  let recs := TestimonialSection.shown (backend w) (calls w) in
  Forall2 (TestimonialSection.displays (backend w)) recs ts ∧
  Forall (λ rec, rec ∈ feedback_table (backend w) ∧
                 FeedbackTable.approved rec = Js.Bool true) recs ∧
  StronglySorted newer_first recs ∧
  (length ts ≤ 10)%nat.
Proof.
  cbv zeta.
  assert (Forall (λ rec, rec ∈ feedback_table (backend w) ∧
                         FeedbackTable.approved rec = Js.Bool true)
            (selected (backend w) TestimonialSection.approved_query)) as Hsel.
  { apply Forall_forall. intros rec Hin.
    apply selected_elem_of in Hin as [Hin Hv]. split; [done|]. by apply Hv. }
  pose proof (selected_sorted (backend w) TestimonialSection.approved_query) as Hsorted.
  pose proof (selected_length (backend w) TestimonialSection.approved_query 10 eq_refl) as Hlen.
  assert (Forall2 (TestimonialSection.displays (backend w))
            (TestimonialSection.shown (backend w) (calls w))
            (TestimonialSection.testimonials
               (ui (TestimonialSection.fetchApprovedFeedback s w)))) as Hdisp.
  { destruct (fetchApprovedFeedback_run s w) as (_ & _ & _ & H). cbv zeta in H.
    unfold TestimonialSection.shown.
    destruct (fault (backend w) (calls w) _);
      [|destruct H as (-> & _); constructor..].
    destruct (TestimonialSection.userIds_of _) as [|u0 ids].
    { destruct H as (-> & _). apply plain_displays. }
    destruct H as (_ & H). cbv zeta in H.
    destruct (fault (backend w) (S (calls w)) _).
    - destruct H as (-> & _). apply Forall2_fmap_r.
      eapply Forall2_impl; [apply plain_displays|].
      intros rec t. apply resolve_author_displays.
    - destruct H as (-> & _). apply plain_displays.
    - destruct H as (-> & _). constructor. }
  split; [done|].
  assert (TestimonialSection.shown (backend w) (calls w)
            = selected (backend w) TestimonialSection.approved_query ∨
          TestimonialSection.shown (backend w) (calls w) = []) as [Heq|Heq].
  { unfold TestimonialSection.shown. destruct (fault _ _ _); [|by right..].
    destruct (TestimonialSection.userIds_of _); [by left|].
    destruct (fault _ _ _); [by left|by left|by right]. }
  - rewrite <- (Forall2_length _ _ _ Hdisp), Heq. done.
  - rewrite <- (Forall2_length _ _ _ Hdisp), Heq. repeat split; try constructor. cbn. lia.
Qed.

(** ** Who writes the approval flag *)

Lemma spawn_fetchApprovedFeedback_backend s w :
  backend (world (spawn TestimonialSection.fetchApprovedFeedback s w)) = backend w.
Proof.
  destruct (fetchApprovedFeedback_run s w) as (Ho & Hb & _).
  by rewrite (spawn_returned _ _ _ Ho).
Qed.

Lemma spawn_fetchApprovedFeedback_outcome s w :
  outcome (spawn TestimonialSection.fetchApprovedFeedback s w) = Returned tt.
Proof.
  destruct (fetchApprovedFeedback_run s w) as (Ho & _).
  by rewrite (spawn_returned _ _ _ Ho).
Qed.

Lemma testimonials_mount_backend s w :
  backend (world (TestimonialSection.mount s w)) = backend w.
Proof.
  unfold TestimonialSection.mount, TestimonialSection.effect_listen,
    TestimonialSection.effect_listen_and_fetch, subscribe.
  unfold bind; cbn.
  rewrite spawn_returned by apply fetchApprovedFeedback_run.
  match goal with
  | |- context [TestimonialSection.fetchApprovedFeedback s ?w2] =>
      destruct (fetchApprovedFeedback_run s w2) as (Ho & Hb & _);
      destruct (TestimonialSection.fetchApprovedFeedback s w2) as [o1 s1 w1 evs1]
  end.
  cbn in Ho, Hb. subst o1. cbn. done.
Qed.

Lemma testimonials_on_change_backend s w :
  backend (world (TestimonialSection.on_change s w)) = backend w.
Proof.
  unfold TestimonialSection.on_change.
  apply (for_of_keeps_backend (λ _ _, spawn TestimonialSection.fetchApprovedFeedback)).
  intros _ _ s0 w0. apply spawn_fetchApprovedFeedback_backend.
Qed.

Lemma testimonials_unmount_backend cs s w :
  backend (world (TestimonialSection.unmount cs s w)) = backend w.
Proof.
  unfold TestimonialSection.unmount.
  by apply (for_of_keeps_backend (λ _ c, removeChannel c)).
Qed.

Lemma admin_mount_backend s w :
  backend (world (Feedback.mount s w)) = backend w.
Proof. rewrite admin_mount_eq. cbn [world]. apply fetchFeedback_run. Qed.

Lemma updateFeedbackStatus_backend id a s w :
  backend (world (Feedback.updateFeedbackStatus id a s w)) = backend w ∨
  backend (world (Feedback.updateFeedbackStatus id a s w)) = exec_update (backend w) id a.
Proof.
  unfold Feedback.updateFeedbackStatus. run_async.
  fault_cases; cbn; [by right|by left|by left].
Qed.

Lemma deleteFeedback_backend s w :
  backend (world (Feedback.deleteFeedback s w)) = backend w ∨
  ∃ id, backend (world (Feedback.deleteFeedback s w)) = exec_delete (backend w) id.
Proof.
  unfold Feedback.deleteFeedback. run_async.
  destruct (Js.truthy_str _); cbn; [|by left].
  fault_cases; cbn; [right; by eexists|by left|by left].
Qed.

Lemma exec_update_approved b id a rec :
  rec ∈ feedback_table (exec_update b id a) →
  FeedbackTable.approved rec = Js.Bool true →
  rec ∈ feedback_table b ∨ (a = true ∧ FeedbackTable.id rec = id).
Proof.
  cbn. intros Hin Happ. apply list_elem_of_fmap in Hin as (r0 & -> & Hin).
  case_bool_decide as Hid; [|by left].
  right. cbn in Happ. injection Happ as ->. done.
Qed.

(** C8: the feedback form inserts its record with the approval flag set
    to false, and among the operations of the three components only the
    admin page's status change with [approved = true] puts a record
    with a true flag into the table: any other operation leaves every
    approved record of the table one that was there before. *)
Theorem approval_only_by_moderator :
  (∀ s w,
     Forall (λ q, match q with
                  | InsertFeedback p => ins_approved p = false
                  | UpdateFeedback _ _ | DeleteFeedback _ => False
                  | _ => True
                  end)
       (remote_requests (events (Profile.handleFeedbackSubmit s w))) ∧
     ∀ rec, rec ∈ feedback_table (backend (world (Profile.handleFeedbackSubmit s w))) →
            rec ∈ feedback_table (backend w) ∨
            FeedbackTable.approved rec = Js.Bool false) ∧
  (∀ op w rec,
     rec ∈ feedback_table (backend (App.world_after op w)) →
     FeedbackTable.approved rec = Js.Bool true →
     rec ∈ feedback_table (backend w) ∨
     ∃ s id, op = App.AdminSetStatus s id true ∧ FeedbackTable.id rec = id).
Proof.
  assert (∀ s w,
     Forall (λ q, match q with
                  | InsertFeedback p => ins_approved p = false
                  | UpdateFeedback _ _ | DeleteFeedback _ => False
                  | _ => True
                  end)
       (remote_requests (events (Profile.handleFeedbackSubmit s w))) ∧
     ∀ rec, rec ∈ feedback_table (backend (world (Profile.handleFeedbackSubmit s w))) →
            rec ∈ feedback_table (backend w) ∨
            FeedbackTable.approved rec = Js.Bool false) as Hsubmit.
  { intros s w. destruct (handleFeedbackSubmit_run s w) as (_ & [[Hb Hq]|(p & Hp & _ & Hq & Hb)]).
    - split; [|intros rec; rewrite Hb; by left].
      eapply Forall_impl; [exact Hq|]. intros [] Hw; try done;
        destruct (Hw eq_refl) as (p & [= <-] & ?); done.
    - rewrite Hq, Hb. split; [by repeat constructor|].
      intros rec Hin. cbn in Hin. apply elem_of_app in Hin as [Hin|Hin]; [by left|].
      apply list_elem_of_singleton in Hin as ->. right. cbn. by rewrite Hp. }
  split; [exact Hsubmit|].
  intros op w rec Hin Happ.
  destruct op as [s|s|s cs|s|s|s id a|s|s]; unfold App.world_after in Hin.
  - rewrite testimonials_mount_backend in Hin. by left.
  - rewrite testimonials_on_change_backend in Hin. by left.
  - rewrite testimonials_unmount_backend in Hin. by left.
  - rewrite admin_mount_backend in Hin. by left.
  - destruct (fetchFeedback_run s w) as (_ & Hb & _). rewrite Hb in Hin. by left.
  - destruct (updateFeedbackStatus_backend id a s w) as [Hb|Hb]; rewrite Hb in Hin; [by left|].
    destruct (exec_update_approved _ _ _ _ Hin Happ) as [?|[-> Hid]]; [by left|].
    right. by exists s, id.
  - destruct (deleteFeedback_backend s w) as [Hb|[id Hb]]; rewrite Hb in Hin; [by left|].
    cbn in Hin. apply list_elem_of_filter in Hin as [_ Hin]. by left.
  - destruct (proj2 (Hsubmit s w) rec Hin) as [?|Hfalse]; [by left|]. congruence.
Qed.

Lemma approval_only_by_moderator_witness :
  set_approved true Sample.f3 ∈ feedback_table (backend (Sample.world_of Sample.shop)) ∨
  ∃ s id, App.AdminSetStatus Sample.admin_loaded "f3" true = App.AdminSetStatus s id true ∧
          FeedbackTable.id (set_approved true Sample.f3) = id.
Proof.
  apply (proj2 approval_only_by_moderator
           (App.AdminSetStatus Sample.admin_loaded "f3" true)
           (Sample.world_of Sample.shop)).
  - vm_compute. do 2 apply list_elem_of_further. apply list_elem_of_here.
  - reflexivity.
Defined.

(** ** Realtime subscriptions of the testimonial view *)

Lemma fetchApprovedFeedback_trace s w :
  TestimonialSection.subscriptions
    (events (TestimonialSection.fetchApprovedFeedback s w)) = [] ∧
  TestimonialSection.primary_queries
    (events (TestimonialSection.fetchApprovedFeedback s w))
  = [TestimonialSection.approved_query] ∧
  channels (world (TestimonialSection.fetchApprovedFeedback s w)) = channels w.
Proof.
  unfold TestimonialSection.fetchApprovedFeedback. run_async.
  fault_cases; cbn; [|done|done].
  destruct (exec_select_feedback (backend w) TestimonialSection.approved_query)
    as [|d data] eqn:Hdata; cbn; [done|].
  destruct (TestimonialSection.userIds_of (d :: data)) as [|u ids] eqn:Hids; cbn; [done|].
  fault_cases; cbn; done.
Qed.

(** C3 (what the code does): when the testimonial view becomes active,
    two change-notification subscriptions on table [feedback] are
    established, one by each of the two effects, under distinct channel
    handles; the initial fetch is issued directly, exactly once. *)
Theorem testimonial_mount_subscribes_twice s w :
  let r := TestimonialSection.mount s w in
  let c1 := TestimonialSection.feedback_channel (next_handle w) in
  let c2 := TestimonialSection.feedback_channel (S (next_handle w)) in
  TestimonialSection.subscriptions (events r) = [c1; c2] ∧
  channels (world r) = channels w ++ [c1; c2] ∧
  outcome r = Returned [handle c1; handle c2] ∧
  TestimonialSection.primary_queries (events r) = [TestimonialSection.approved_query].
Proof.
  cbv zeta.
  unfold TestimonialSection.mount, TestimonialSection.effect_listen,
    TestimonialSection.effect_listen_and_fetch, subscribe.
  unfold bind; cbn.
  rewrite spawn_returned by apply fetchApprovedFeedback_run.
  match goal with
  | |- context [TestimonialSection.fetchApprovedFeedback s ?w2] =>
      destruct (fetchApprovedFeedback_run s w2) as (Ho & _);
      destruct (fetchApprovedFeedback_trace s w2) as (Hs & Hq & Hc);
      destruct (TestimonialSection.fetchApprovedFeedback s w2) as [o1 s1 w1 evs1]
  end.
  cbn in Ho. subst o1.
  cbn -[TestimonialSection.subscriptions TestimonialSection.primary_queries]
    in Hs, Hq, Hc |- *.
  rewrite !app_nil_r.
  change (TestimonialSection.subscriptions (Subscribed ?a :: Subscribed ?b :: evs1))
    with (a :: b :: TestimonialSection.subscriptions evs1).
  change (TestimonialSection.primary_queries (Subscribed ?a :: Subscribed ?b :: evs1))
    with (TestimonialSection.primary_queries evs1).
  rewrite Hs, Hq, Hc, <- app_assoc. done.
Qed.

(** After the view has become active on the sample shop, one change
    notification runs the pipeline twice, and deactivation removes both
    channels. *)
Example one_change_two_fetches :
  let r := TestimonialSection.mount TestimonialSection.initial (Sample.world_of Sample.shop) in
  TestimonialSection.primary_queries
    (events (TestimonialSection.on_change (ui r) (world r)))
  = [TestimonialSection.approved_query; TestimonialSection.approved_query] ∧
  channels (world (TestimonialSection.unmount [0; 1]%nat (ui r) (world r))) = [].
Proof. split; by vm_compute. Qed.

(** * Further properties of the components *)

(** ** The admin page: what a mutation leaves behind *)

Lemma updateFeedbackStatus_state id a s w :
  let r := Feedback.updateFeedbackStatus id a s w in
  ui r = {| Feedback.feedback := Feedback.with_approved_of id a <$> Feedback.feedback s;
            Feedback.loading := Feedback.loading s;
            Feedback.updating := None;
            Feedback.deleteDialogOpen := Feedback.deleteDialogOpen s;
            Feedback.feedbackToDelete := Feedback.feedbackToDelete s |} ∧
  world r = served w match fault (backend w) (calls w) (UpdateFeedback id a) with
                     | NoFault => exec_update (backend w) id a
                     | _ => backend w
                     end.
Proof.
  unfold Feedback.updateFeedbackStatus. run_async.
  fault_cases; cbn; done.
Qed.

Lemma deleteFeedback_state s w :
  Js.truthy_str (Feedback.feedbackToDelete s) = true →
  let id := default "" (Feedback.feedbackToDelete s) in
  let r := Feedback.deleteFeedback s w in
  ui r = {| Feedback.feedback := filter (λ item, Feedback.id item ≠ id) (Feedback.feedback s);
            Feedback.loading := Feedback.loading s;
            Feedback.updating := None;
            Feedback.deleteDialogOpen := false;
            Feedback.feedbackToDelete := None |} ∧
  world r = served w match fault (backend w) (calls w) (DeleteFeedback id) with
                     | NoFault => exec_delete (backend w) id
                     | _ => backend w
                     end.
Proof.
  intros Ht. unfold Feedback.deleteFeedback. run_async. rewrite Ht. cbn.
  fault_cases; cbn; done.
Qed.

Lemma mutate_delete_eq id s w :
  Feedback.mutate (Feedback.Delete id) s w =
  let r := Feedback.deleteFeedback
             (ui (Feedback.handleDeleteClick id s w)) w in
  mkRun (outcome r) (ui r) (world r)
    (SetState "setFeedbackToDelete" :: SetState "setDeleteDialogOpen" :: events r).
Proof.
  cbv zeta. unfold Feedback.mutate, Feedback.handleDeleteClick, bind.
  cbn -[Feedback.deleteFeedback].
  match goal with
  | |- context [Feedback.deleteFeedback ?s0 w] =>
      by destruct (Feedback.deleteFeedback s0 w)
  end.
Qed.

(** What any mutation leaves in the state and in the world. *)
Lemma mutate_state (m : Feedback.Mutation) s w :
  m ≠ Feedback.Delete "" →
  let r := Feedback.mutate m s w in
  Feedback.updating (ui r) = None ∧
  Feedback.loading (ui r) = Feedback.loading s ∧
  Feedback.feedback (ui r) =
    match m with
    | Feedback.SetStatus id a => Feedback.with_approved_of id a <$> Feedback.feedback s
    | Feedback.Delete id => filter (λ item, Feedback.id item ≠ id) (Feedback.feedback s)
    end ∧
  world r = served w match fault (backend w) (calls w) (Feedback.write_of m), m with
                     | NoFault, Feedback.SetStatus id a => exec_update (backend w) id a
                     | NoFault, Feedback.Delete id => exec_delete (backend w) id
                     | _, _ => backend w
                     end ∧
  (∀ id, m = Feedback.Delete id →
         Feedback.feedbackToDelete (ui r) = None ∧
         Feedback.deleteDialogOpen (ui r) = false).
Proof.
  intros Hm. cbv zeta. destruct m as [id a|id].
  - change (Feedback.mutate (Feedback.SetStatus id a))
      with (Feedback.updateFeedbackStatus id a).
    destruct (updateFeedbackStatus_state id a s w) as [-> ->]. cbn.
    repeat split; try done; try by destruct (fault _ _ _).
  - assert (id ≠ "") as Hid by congruence.
    rewrite mutate_delete_eq. cbv zeta. cbn [ui world].
    destruct (deleteFeedback_state (ui (Feedback.handleDeleteClick id s w)) w)
      as [-> ->]; [cbn; by rewrite bool_decide_true|].
    cbn. repeat split; try done; try by destruct (fault _ _ _).
Qed.

(** X1: when a mutation has run, nothing is left disabled by it: the
    [updating] marker is cleared whatever the backend answered, so no
    approval button and no delete button is disabled, and Refresh is
    disabled only if the page was loading; after a delete the dialog is
    closed and no record is selected for deletion. *)
Theorem mutation_releases_controls (m : Feedback.Mutation) s w :
  m ≠ Feedback.Delete "" →
  let s' := ui (Feedback.mutate m s w) in
  Feedback.updating s' = None ∧
  (∀ item, Feedback.toggle_disabled s' item = false) ∧
  Feedback.delete_disabled s' = false ∧
  Feedback.refresh_disabled s' = Feedback.loading s ∧
  (∀ id, m = Feedback.Delete id →
         Feedback.feedbackToDelete s' = None ∧ Feedback.deleteDialogOpen s' = false).
Proof.
  intros Hm. cbv zeta.
  destruct (mutate_state m s w Hm) as (Hu & Hl & _ & _ & Hd).
  unfold Feedback.toggle_disabled, Feedback.delete_disabled, Feedback.refresh_disabled.
  rewrite Hu, Hl. repeat split; try done.
  - rewrite bool_decide_false by (by intros []). apply orb_false_r.
  - by eapply proj1, Hd.
  - by eapply proj2, Hd.
Qed.

Lemma mutation_releases_controls_witness :
  Feedback.updating
    (ui (Feedback.mutate (Feedback.Delete "f1") Sample.admin_loaded
           (Sample.world_of Sample.read_only_shop))) = None.
Proof.
  apply (mutation_releases_controls (Feedback.Delete "f1") Sample.admin_loaded
           (Sample.world_of Sample.read_only_shop)).
  discriminate.
Defined.

(** X2: confirming a delete while no record is selected (the selection
    is null or the empty string) does nothing at all: no request, no
    toast, no state change. *)
Theorem delete_without_target_does_nothing s w :
  Js.truthy_str (Feedback.feedbackToDelete s) = false →
  Feedback.deleteFeedback s w = mkRun (Returned tt) s w [].
Proof.
  intros Ht. unfold Feedback.deleteFeedback. run_async. by rewrite Ht.
Qed.

Lemma delete_without_target_does_nothing_witness :
  Feedback.deleteFeedback Sample.admin_loaded (Sample.world_of Sample.shop)
  = mkRun (Returned tt) Sample.admin_loaded (Sample.world_of Sample.shop) [].
Proof.
  apply (delete_without_target_does_nothing Sample.admin_loaded
           (Sample.world_of Sample.shop)).
  reflexivity.
Defined.

(** ** The admin page: mutations one after the other *)

Lemma with_approved_of_id id a item :
  Feedback.id (Feedback.with_approved_of id a item) = Feedback.id item.
Proof. unfold Feedback.with_approved_of. by case_bool_decide. Qed.

Lemma with_approved_of_twice id a b item :
  Feedback.with_approved_of id b (Feedback.with_approved_of id a item)
  = Feedback.with_approved_of id b item.
Proof. unfold Feedback.with_approved_of. by repeat (case_bool_decide; cbn in *). Qed.

Lemma filter_with_approved_of id a (l : list Feedback.FeedbackItem) :
  filter (λ item, Feedback.id item ≠ id) (Feedback.with_approved_of id a <$> l)
  = filter (λ item, Feedback.id item ≠ id) l.
Proof.
  induction l as [|x l IH]; [done|]. rewrite fmap_cons.
  destruct (decide (Feedback.id x = id)) as [Heq|Hne].
  - rewrite !filter_cons_False; [done| |]; rewrite ?with_approved_of_id; auto.
  - rewrite !filter_cons_True by (rewrite ?with_approved_of_id; done).
    rewrite IH. f_equal. unfold Feedback.with_approved_of.
    by rewrite bool_decide_false.
Qed.

(** X3: of two mutations on the same record the later one decides the
    local list: after a status change followed by another status change,
    or by a delete, of the same identifier, the list is what the second
    mutation alone would have left, whatever the backend answered to
    either write. *)
Theorem later_mutation_wins id a (m2 : Feedback.Mutation) s w :
  id ≠ "" →
  (∃ b, m2 = Feedback.SetStatus id b) ∨ m2 = Feedback.Delete id →
  let r1 := Feedback.mutate (Feedback.SetStatus id a) s w in
  let r2 := Feedback.mutate m2 (ui r1) (world r1) in
  Feedback.feedback (ui r2) = Feedback.feedback (ui (Feedback.mutate m2 s w)) ∧
  Feedback.reflects m2 (Feedback.feedback s) (Feedback.feedback (ui r2)).
Proof.
  intros Hid Hm2. cbv zeta.
  assert (m2 ≠ Feedback.Delete "") as Hne.
  { intros ->. destruct Hm2 as [[b ?]|[= ?]]; done. }
  destruct (mutate_state (Feedback.SetStatus id a) s w) as (_ & _ & Hl1 & _); [done|].
  destruct (mutate_state m2 (ui (Feedback.mutate (Feedback.SetStatus id a) s w))
              (world (Feedback.mutate (Feedback.SetStatus id a) s w)) Hne)
    as (_ & _ & Hl2 & _).
  destruct (mutate_state m2 s w Hne) as (_ & _ & Hl3 & _).
  rewrite Hl2, Hl3, Hl1.
  destruct Hm2 as [[b ->]| ->].
  - rewrite <- list_fmap_compose.
    rewrite (list_fmap_ext _ (Feedback.with_approved_of id b))
      by (intros; apply with_approved_of_twice).
    split; [done|]. apply (reflects_set_status id b).
  - rewrite filter_with_approved_of. split; [done|]. apply (reflects_delete id).
Qed.

Lemma later_mutation_wins_witness :
  Feedback.feedback
    (ui (Feedback.mutate (Feedback.Delete "f3")
           (ui (Feedback.mutate (Feedback.SetStatus "f3" true) Sample.admin_loaded
                  (Sample.world_of Sample.read_only_shop)))
           (world (Feedback.mutate (Feedback.SetStatus "f3" true) Sample.admin_loaded
                     (Sample.world_of Sample.read_only_shop)))))
  = Feedback.feedback
      (ui (Feedback.mutate (Feedback.Delete "f3") Sample.admin_loaded
             (Sample.world_of Sample.read_only_shop))).
Proof.
  apply (later_mutation_wins "f3" true (Feedback.Delete "f3") Sample.admin_loaded
           (Sample.world_of Sample.read_only_shop)).
  - discriminate.
  - by right.
Defined.

Lemma same_id_same_item (l : list Feedback.FeedbackItem) x y :
  NoDup (Feedback.id <$> l) → x ∈ l → y ∈ l → Feedback.id x = Feedback.id y → x = y.
Proof.
  induction l as [|z l IH]; intros Hnd Hx Hy Heq; [by apply elem_of_nil in Hx|].
  rewrite fmap_cons in Hnd. apply NoDup_cons in Hnd as [Hz Hnd].
  apply elem_of_cons in Hx as [->|Hx]; apply elem_of_cons in Hy as [->|Hy]; try done.
  - exfalso. apply Hz. rewrite Heq. apply list_elem_of_fmap. by exists y.
  - exfalso. apply Hz. rewrite <- Heq. apply list_elem_of_fmap. by exists x.
  - by apply IH.
Qed.

(** X4: pressing the approval button of a record twice brings the local
    list back to what it was, provided the identifiers in the list are
    pairwise distinct; the second press acts on the record as displayed
    after the first. *)
Theorem toggle_twice_restores_list (item : Feedback.FeedbackItem) s w :
  NoDup (Feedback.id <$> Feedback.feedback s) →
  item ∈ Feedback.feedback s →
  let r1 := Feedback.toggle item s w in
  let item' := Feedback.with_approved_of (Feedback.id item)
                 (negb (Feedback.approved item)) item in
  let r2 := Feedback.toggle item' (ui r1) (world r1) in
  item' ∈ Feedback.feedback (ui r1) ∧
  Feedback.approved item' = negb (Feedback.approved item) ∧
  Feedback.feedback (ui r2) = Feedback.feedback s.
Proof.
  intros Hnd Hin. cbv zeta. unfold Feedback.toggle.
  destruct (updateFeedbackStatus_state (Feedback.id item)
              (negb (Feedback.approved item)) s w) as [Hs1 _].
  cbv zeta in Hs1. rewrite Hs1. cbn [Feedback.feedback].
  split; [apply list_elem_of_fmap; by exists item|].
  assert (Feedback.approved
            (Feedback.with_approved_of (Feedback.id item)
               (negb (Feedback.approved item)) item)
          = negb (Feedback.approved item)) as Happ.
  { unfold Feedback.with_approved_of. by rewrite bool_decide_true. }
  split; [done|].
  match goal with
  | |- context [Feedback.updateFeedbackStatus ?i ?a ?s1 ?w1] =>
      destruct (updateFeedbackStatus_state i a s1 w1) as [Hs2 _]
  end.
  cbv zeta in Hs2. rewrite Hs2. cbn [Feedback.feedback].
  rewrite with_approved_of_id, Happ, negb_involutive, <- list_fmap_compose.
  rewrite <- (list_fmap_id (Feedback.feedback s)) at 2.
  apply list_fmap_ext. intros i x Hx. cbn.
  rewrite with_approved_of_twice. unfold Feedback.with_approved_of.
  case_bool_decide as Heq; [|done].
  assert (x = item) as ->.
  { apply (same_id_same_item (Feedback.feedback s)); try done.
    by eapply list_elem_of_lookup_2. }
  by destruct item.
Qed.

Lemma toggle_twice_restores_list_witness :
  ∃ item, Feedback.feedback Sample.admin_loaded !! 1%nat = Some item ∧
    Feedback.feedback
      (ui (Feedback.toggle
             (Feedback.with_approved_of (Feedback.id item)
                (negb (Feedback.approved item)) item)
             (ui (Feedback.toggle item Sample.admin_loaded (Sample.world_of Sample.shop)))
             (world (Feedback.toggle item Sample.admin_loaded (Sample.world_of Sample.shop)))))
    = Feedback.feedback Sample.admin_loaded.
Proof.
  eexists. split; [vm_compute; reflexivity|].
  eapply proj2, proj2,
    (toggle_twice_restores_list _ Sample.admin_loaded (Sample.world_of Sample.shop)).
  - apply (bool_decide_unpack _). vm_compute. exact I.
  - vm_compute. apply list_elem_of_further, list_elem_of_here.
Defined.

(** ** The admin page: what a served load shows *)

Lemma Forall2_fmap_eq {A B C} (f : A → C) (g : B → C) (l : list A) (k : list B) :
  Forall2 (λ x y, f x = g y) l k → f <$> l = g <$> k.
Proof. induction 1 as [|x y l k Hxy _ IH]; [done|]. cbn. by rewrite Hxy, IH. Qed.

Lemma selected_all b :
  selected b Feedback.all_query = merge_sort newer_first (feedback_table b).
Proof. done. Qed.

(** The records of a served load, row by row. *)
Lemma admin_load_rows s w :
  fault (backend w) (calls w) (SelectFeedback Feedback.all_query) = NoFault →
  Forall2
    (λ rec item, ∃ n e,
       item = Feedback.to_item (select_row (backend w) Feedback.all_query rec) n e)
    (selected (backend w) Feedback.all_query)
    (Feedback.feedback (ui (Feedback.fetchFeedback s w))).
Proof.
  intros Hf. destruct (fetchFeedback_run s w) as (_ & _ & _ & H). cbv zeta in H.
  rewrite Hf in H. destruct H as [H _].
  unfold exec_select_feedback in H.
  apply (Forall2_fmap_l (select_row (backend w) Feedback.all_query)) in H.
  eapply Forall2_impl; [exact H|].
  intros rec item (n & e & -> & _). by exists n, e.
Qed.

(** X5: a served load of the admin page lists every stored feedback row
    exactly once, whatever its approval state, most recent first. *)
Theorem admin_load_lists_every_row s w :
  fault (backend w) (calls w) (SelectFeedback Feedback.all_query) = NoFault →
  let items := Feedback.feedback (ui (Feedback.fetchFeedback s w)) in
  Feedback.id <$> items ≡ₚ FeedbackTable.id <$> feedback_table (backend w) ∧
  length items = length (feedback_table (backend w)) ∧
  StronglySorted (λ x y, y ≤ x) (Feedback.created_at <$> items).
Proof.
  intros Hf. cbv zeta. pose proof (admin_load_rows s w Hf) as H.
  assert (Feedback.id <$> Feedback.feedback (ui (Feedback.fetchFeedback s w))
          = FeedbackTable.id <$> selected (backend w) Feedback.all_query) as Hids.
  { symmetry. apply Forall2_fmap_eq. eapply Forall2_impl; [exact H|].
    by intros rec item (n & e & ->). }
  assert (Feedback.created_at <$> Feedback.feedback (ui (Feedback.fetchFeedback s w))
          = FeedbackTable.created_at <$> selected (backend w) Feedback.all_query) as Hts.
  { symmetry. apply Forall2_fmap_eq. eapply Forall2_impl; [exact H|].
    by intros rec item (n & e & ->). }
  split; [|split].
  - rewrite Hids, selected_all. by rewrite merge_sort_Permutation.
  - rewrite <- (Forall2_length _ _ _ H), selected_all.
    by rewrite merge_sort_Permutation.
  - rewrite Hts. eapply StronglySorted_fmap; [|apply selected_sorted]. done.
Qed.

Lemma admin_load_lists_every_row_witness :
  length (Feedback.feedback
            (ui (Feedback.fetchFeedback Feedback.initial (Sample.world_of Sample.shop4))))
  = length (feedback_table (backend (Sample.world_of Sample.shop4))).
Proof.
  apply (admin_load_lists_every_row Feedback.initial (Sample.world_of Sample.shop4)).
  reflexivity.
Defined.

(** X6: every record of a served load carries the comment, rating,
    author and product references and creation time of its stored row,
    and as product name the name of the attached product, or "General
    Feedback" when no product is attached or its name is empty. *)
Theorem admin_load_copies_row_fields s w :
  fault (backend w) (calls w) (SelectFeedback Feedback.all_query) = NoFault →
  Forall2
    (λ rec item,
       Feedback.id item = FeedbackTable.id rec ∧
       Feedback.message item = FeedbackTable.comment rec ∧
       Feedback.rating item = FeedbackTable.rating rec ∧
       Feedback.user_id item = FeedbackTable.user_id rec ∧
       Feedback.product_id item = FeedbackTable.product_id rec ∧
       Feedback.created_at item = FeedbackTable.created_at rec ∧
       Feedback.product_name item = Feedback.product_cell (backend w) rec)
    (selected (backend w) Feedback.all_query)
    (Feedback.feedback (ui (Feedback.fetchFeedback s w))).
Proof.
  intros Hf. eapply Forall2_impl; [apply (admin_load_rows s w Hf)|].
  intros rec item (n & e & ->). cbn. repeat split.
  unfold Feedback.product_cell, Js.or_else.
  destruct (join_products (backend w) _) as [p|]; cbn; [|done].
  by case_bool_decide.
Qed.

Lemma admin_load_copies_row_fields_witness :
  Forall2
    (λ rec item,
       Feedback.id item = FeedbackTable.id rec ∧
       Feedback.message item = FeedbackTable.comment rec ∧
       Feedback.rating item = FeedbackTable.rating rec ∧
       Feedback.user_id item = FeedbackTable.user_id rec ∧
       Feedback.product_id item = FeedbackTable.product_id rec ∧
       Feedback.created_at item = FeedbackTable.created_at rec ∧
       Feedback.product_name item
         = Feedback.product_cell (backend (Sample.world_of Sample.shop4)) rec)
    (selected (backend (Sample.world_of Sample.shop4)) Feedback.all_query)
    (Feedback.feedback
       (ui (Feedback.fetchFeedback Feedback.initial (Sample.world_of Sample.shop4)))).
Proof.
  apply (admin_load_copies_row_fields Feedback.initial (Sample.world_of Sample.shop4)).
  reflexivity.
Defined.

Lemma lookup_user_resolved item s w :
  ∃ n e,
    outcome (Feedback.lookup_user item s w) = Returned (n, e) ∧
    (∀ p, Feedback.resolves_to (backend w) item p →
          n = Js.or_else (Profiles.full_name p) "Anonymous User" ∧
          e = Js.or_else (Profiles.email p) "No Email") ∧
    ui (Feedback.lookup_user item s w) = s ∧
    backend (world (Feedback.lookup_user item s w)) = backend w ∧
    events (Feedback.lookup_user item s w) = Feedback.lookup_events item.
Proof.
  destruct (lookup_user_spec item s w) as (n & e & Ho & _ & Hu & Hb & He).
  exists n, e. split; [done|]. split; [|done].
  intros p (u & Hid & Hne & Hflt & Hk).
  revert Ho. unfold Feedback.lookup_user. rewrite Hid. cbn.
  rewrite bool_decide_true by done. run_async.
  rewrite Hk. cbn. unfold exec_select_profile_single. rewrite Hflt. cbn.
  by intros [= <- <-].
Qed.

Lemma process_resolved (b : Backend) acc item s w :
  backend w = b →
  ∃ y, outcome (Feedback.process acc item s w) = Returned (acc ++ [y]) ∧
       (∃ n e, y = Feedback.to_item item n e ∧
               ∀ p, Feedback.resolves_to b item p →
                    n = Js.or_else (Profiles.full_name p) "Anonymous User" ∧
                    e = Js.or_else (Profiles.email p) "No Email") ∧
       ui (Feedback.process acc item s w) = s ∧
       backend (world (Feedback.process acc item s w)) = b ∧
       events (Feedback.process acc item s w) = Feedback.lookup_events item.
Proof.
  intros <-. destruct (lookup_user_resolved item s w) as (n & e & Ho & Hf & Hu & Hb & He).
  exists (Feedback.to_item item n e). unfold Feedback.process.
  rewrite (bind_returned _ _ _ _ _ Ho). cbn. rewrite Hu, Hb, He, app_nil_r.
  repeat split; try done. by exists n, e.
Qed.

(** X7: after a served load, a row whose identity reference is carried
    by exactly one profile, and whose lookup is served, is listed under
    that profile's full name and email; a missing or empty full name or
    email is replaced by "Anonymous User" or "No Email". *)
Theorem admin_load_resolves_names s w :
  fault (backend w) (calls w) (SelectFeedback Feedback.all_query) = NoFault →
  ∀ (i : nat) row item p,
    exec_select_feedback (backend w) Feedback.all_query !! i = Some row →
    Feedback.feedback (ui (Feedback.fetchFeedback s w)) !! i = Some item →
    Feedback.resolves_to (backend w) row p →
    Feedback.id item = Supabase.id row ∧
    Feedback.name item = Js.or_else (Profiles.full_name p) "Anonymous User" ∧
    Feedback.email item = Js.or_else (Profiles.email p) "No Email".
Proof.
  intros Hf i row item p Hrow Hitem Hres.
  assert (∃ o s1 w1 evs1, Feedback.fetchFeedback s w = mkRun o s1 w1 evs1)
    as (o & s1 & w1 & evs1 & Hr)
    by (destruct (Feedback.fetchFeedback s w); by eexists _, _, _, _).
  rewrite Hr in Hitem. cbn in Hitem.
  revert Hr. unfold Feedback.fetchFeedback. run_async. rewrite Hf. cbn.
  destruct (for_of_push Feedback.process
              (λ row y, ∃ n e, y = Feedback.to_item row n e ∧
                 ∀ p, Feedback.resolves_to (backend w) row p →
                      n = Js.or_else (Profiles.full_name p) "Anonymous User" ∧
                      e = Js.or_else (Profiles.email p) "No Email")
              Feedback.lookup_events (backend w)
              (λ acc x s0 w0, process_resolved (backend w) acc x s0 w0)
              (exec_select_feedback (backend w) Feedback.all_query) [] s
              (served w (backend w)) eq_refl)
    as (ys & Ho & HQ & Hu & Hb & He).
  destruct (for_of _ [] Feedback.process s (served w (backend w)))
    as [o2 s2 w2 evs2]; cbn in Ho, Hu, Hb, He; subst; cbn.
  intros [= <- <- <- <-]. cbn in Hitem.
  destruct (Forall2_lookup_lr _ _ _ _ _ _ HQ Hrow Hitem) as (n & e & -> & Hne).
  destruct (Hne p Hres) as [-> ->]. done.
Qed.

Lemma admin_load_resolves_names_witness :
  ∃ item, Feedback.feedback
            (ui (Feedback.fetchFeedback Feedback.initial (Sample.world_of Sample.shop)))
            !! 0%nat = Some item ∧
          Feedback.id item = "f2" ∧
          Feedback.name item = "Bea Lund" ∧
          Feedback.email item = "bea@example.com".
Proof.
  eexists. split; [vm_compute; reflexivity|].
  apply (admin_load_resolves_names Feedback.initial (Sample.world_of Sample.shop)
           eq_refl 0%nat (select_row Sample.shop Feedback.all_query Sample.f2) _ Sample.bea).
  - reflexivity.
  - vm_compute. reflexivity.
  - exists "u2". repeat split; try done.
Defined.

(** ** The admin page: a refresh after a mutation *)

Lemma admin_load_flags s w :
  fault (backend w) (calls w) (SelectFeedback Feedback.all_query) = NoFault →
  Forall2
    (λ rec item,
       Feedback.id item = FeedbackTable.id rec ∧
       Feedback.approved item = Js.strict_eq (FeedbackTable.approved rec) (Js.Bool true))
    (selected (backend w) Feedback.all_query)
    (Feedback.feedback (ui (Feedback.fetchFeedback s w))).
Proof.
  intros Hf. eapply Forall2_impl; [apply (admin_load_rows s w Hf)|].
  by intros rec item (n & e & ->).
Qed.

Lemma admin_load_ids s w :
  fault (backend w) (calls w) (SelectFeedback Feedback.all_query) = NoFault →
  Feedback.id <$> Feedback.feedback (ui (Feedback.fetchFeedback s w))
  ≡ₚ FeedbackTable.id <$> feedback_table (backend w).
Proof.
  intros Hf.
  assert (Feedback.id <$> Feedback.feedback (ui (Feedback.fetchFeedback s w))
          = FeedbackTable.id <$> selected (backend w) Feedback.all_query) as ->.
  { symmetry. apply Forall2_fmap_eq. eapply Forall2_impl; [apply (admin_load_flags s w Hf)|].
    by intros rec item [-> _]. }
  rewrite selected_all. by rewrite merge_sort_Permutation.
Qed.

(** X8: a status change followed by a served refresh: when the write was
    served, every listed record with that identifier shows the requested
    flag; when the write failed, the store is as before and the refresh
    shows every record with its stored flag again, so the change made in
    the list by the failed mutation does not survive the refresh. *)
Theorem refresh_after_status_change id a s w :
  fault (backend w) (S (calls w)) (SelectFeedback Feedback.all_query) = NoFault →
  let r1 := Feedback.updateFeedbackStatus id a s w in
  let r2 := Feedback.fetchFeedback (ui r1) (world r1) in
  match fault (backend w) (calls w) (UpdateFeedback id a) with
  | NoFault =>
      ∀ item, item ∈ Feedback.feedback (ui r2) → Feedback.id item = id →
              Feedback.approved item = a
  | _ =>
      backend (world r1) = backend w ∧
      Forall2
        (λ rec item,
           Feedback.id item = FeedbackTable.id rec ∧
           Feedback.approved item
             = Js.strict_eq (FeedbackTable.approved rec) (Js.Bool true))
        (selected (backend w) Feedback.all_query)
        (Feedback.feedback (ui r2))
  end.
Proof.
  intros Hsel. cbv zeta.
  destruct (updateFeedbackStatus_state id a s w) as [_ Hw]. cbv zeta in Hw.
  set (r1 := Feedback.updateFeedbackStatus id a s w) in *.
  assert (calls (world r1) = S (calls w)) as Hc1 by (by rewrite Hw).
  assert (fault (backend (world r1)) = fault (backend w)) as Hf1
    by (rewrite Hw; cbn;
        by destruct (fault (backend w) (calls w) (UpdateFeedback id a))).
  assert (fault (backend (world r1)) (calls (world r1))
            (SelectFeedback Feedback.all_query) = NoFault) as Hsel1
    by (by rewrite Hf1, Hc1).
  pose proof (admin_load_flags (ui r1) (world r1) Hsel1) as H.
  destruct (fault (backend w) (calls w) (UpdateFeedback id a)) eqn:Hf.
  - assert (backend (world r1) = exec_update (backend w) id a) as Hb1
      by (by rewrite Hw).
    intros item Hin Hid.
    apply list_elem_of_lookup in Hin as [i Hi].
    destruct (Forall2_lookup_r _ _ _ _ _ H Hi) as (rec & Hrec & Hid' & Happ).
    apply list_elem_of_lookup_2, selected_elem_of in Hrec as [Hrec _].
    rewrite Hb1 in Hrec. cbn in Hrec.
    apply list_elem_of_fmap in Hrec as (r0 & -> & _).
    rewrite Happ. rewrite Hid in Hid'. revert Hid'.
    case_bool_decide; [by destruct a|congruence].
  - assert (backend (world r1) = backend w) as Hb1 by (by rewrite Hw).
    split; [done|]. by rewrite Hb1 in H.
  - assert (backend (world r1) = backend w) as Hb1 by (by rewrite Hw).
    split; [done|]. by rewrite Hb1 in H.
Qed.

Lemma refresh_after_status_change_witness :
  backend (world (Feedback.updateFeedbackStatus "f3" true Sample.admin_loaded
                    (Sample.world_of Sample.read_only_shop)))
  = backend (Sample.world_of Sample.read_only_shop).
Proof.
  exact (proj1 (refresh_after_status_change "f3" true Sample.admin_loaded
                  (Sample.world_of Sample.read_only_shop) eq_refl)).
Defined.

(** X9: a delete followed by a served refresh: when the delete was
    served, no listed record carries the deleted identifier; when it
    failed, the record is gone from the list right after the mutation
    but, being still stored, is listed again by the refresh. *)
Theorem refresh_after_delete id s w :
  id ≠ "" →
  fault (backend w) (S (calls w)) (SelectFeedback Feedback.all_query) = NoFault →
  let r1 := Feedback.mutate (Feedback.Delete id) s w in
  let r2 := Feedback.fetchFeedback (ui r1) (world r1) in
  (id ∉ Feedback.id <$> Feedback.feedback (ui r1)) ∧
  match fault (backend w) (calls w) (DeleteFeedback id) with
  | NoFault => id ∉ (Feedback.id <$> Feedback.feedback (ui r2))
  | _ => id ∈ (FeedbackTable.id <$> feedback_table (backend w)) →
         id ∈ (Feedback.id <$> Feedback.feedback (ui r2))
  end.
Proof.
  intros Hid Hsel. cbv zeta.
  destruct (mutate_state (Feedback.Delete id) s w) as (_ & _ & Hl & Hw & _);
    [congruence|].
  cbv zeta in Hl, Hw. cbn [Feedback.write_of] in Hw.
  set (r1 := Feedback.mutate (Feedback.Delete id) s w) in *.
  assert (calls (world r1) = S (calls w)) as Hc1 by (by rewrite Hw).
  assert (fault (backend (world r1)) = fault (backend w)) as Hf1
    by (rewrite Hw; cbn;
        by destruct (fault (backend w) (calls w) (DeleteFeedback id))).
  assert (fault (backend (world r1)) (calls (world r1))
            (SelectFeedback Feedback.all_query) = NoFault) as Hsel1
    by (by rewrite Hf1, Hc1).
  pose proof (admin_load_ids (ui r1) (world r1) Hsel1) as H.
  split.
  - rewrite Hl, list_elem_of_fmap. intros (y & Hy & Hin).
    apply list_elem_of_filter in Hin as [Hne _]. by apply Hne.
  - destruct (fault (backend w) (calls w) (DeleteFeedback id)) eqn:Hf.
    + assert (backend (world r1) = exec_delete (backend w) id) as Hb1
        by (by rewrite Hw).
      rewrite H, Hb1. cbn. rewrite list_elem_of_fmap. intros (rec & Hrec & Hin).
      apply list_elem_of_filter in Hin as [Hne _]. by apply Hne.
    + assert (backend (world r1) = backend w) as Hb1 by (by rewrite Hw).
      intros Hin. by rewrite H, Hb1.
    + assert (backend (world r1) = backend w) as Hb1 by (by rewrite Hw).
      intros Hin. by rewrite H, Hb1.
Qed.

Lemma refresh_after_delete_witness :
  "f1" ∉ Feedback.id <$>
    Feedback.feedback
      (ui (Feedback.mutate (Feedback.Delete "f1") Sample.admin_loaded
             (Sample.world_of Sample.read_only_shop))).
Proof.
  apply (refresh_after_delete "f1" Sample.admin_loaded
           (Sample.world_of Sample.read_only_shop)).
  - discriminate.
  - reflexivity.
Defined.

(** ** The admin page: identifiers stay distinct *)

Lemma exec_update_ids b id a :
  FeedbackTable.id <$> feedback_table (exec_update b id a)
  = FeedbackTable.id <$> feedback_table b.
Proof.
  cbn. rewrite <- list_fmap_compose. apply list_fmap_ext.
  intros i r _. cbn. by case_bool_decide.
Qed.

Lemma mutate_no_target s w :
  Feedback.feedback (ui (Feedback.mutate (Feedback.Delete "") s w)) = Feedback.feedback s ∧
  world (Feedback.mutate (Feedback.Delete "") s w) = w.
Proof.
  rewrite mutate_delete_eq. cbv zeta. cbn [ui world].
  unfold Feedback.deleteFeedback. run_async. done.
Qed.

Lemma step_keeps_ids_distinct (st : Feedback.Step) s w :
  NoDup (FeedbackTable.id <$> feedback_table (backend w)) →
  NoDup (Feedback.id <$> Feedback.feedback s) →
  NoDup (FeedbackTable.id <$> feedback_table (backend (world (Feedback.step st s w)))) ∧
  NoDup (Feedback.id <$> Feedback.feedback (ui (Feedback.step st s w))).
Proof.
  intros Hb Hs. destruct st as [|m]; cbn [Feedback.step].
  - destruct (fetchFeedback_run s w) as (_ & -> & _ & H). cbv zeta in H.
    split; [done|].
    destruct (fault (backend w) (calls w) (SelectFeedback Feedback.all_query)) eqn:Hf;
      [|by destruct H as [-> _]..].
    by rewrite (admin_load_ids s w Hf).
  - assert (m = Feedback.Delete "" ∨ m ≠ Feedback.Delete "") as [->|Hm].
    { destruct m as [id a|id]; [by right|].
      destruct (decide (id = "")) as [->|Hid]; [by left|right; congruence]. }
    { destruct (mutate_no_target s w) as [-> ->]. done. }
    destruct (mutate_state m s w Hm) as (_ & _ & -> & -> & _). cbn [backend served].
    split.
    + destruct (fault (backend w) (calls w) (Feedback.write_of m)); [|done..].
      destruct m as [id a|id]; [by rewrite exec_update_ids|].
      cbn. eapply sublist_NoDup; [exact Hb|]. apply fmap_sublist, sublist_filter.
    + destruct m as [id a|id].
      * rewrite <- list_fmap_compose.
        rewrite (list_fmap_ext _ Feedback.id); [done|].
        intros i x _. apply with_approved_of_id.
      * eapply sublist_NoDup; [exact Hs|]. apply fmap_sublist, sublist_filter.
Qed.

(** X10: through any session of refreshes and mutations, whatever the
    backend answers, the identifiers in the local list stay pairwise
    distinct, provided they were and the stored identifiers are (the
    rows are rendered with [key={item.id}]). *)
Theorem session_keeps_ids_distinct (sts : list Feedback.Step) s w :
  NoDup (FeedbackTable.id <$> feedback_table (backend w)) →
  NoDup (Feedback.id <$> Feedback.feedback s) →
  NoDup (FeedbackTable.id <$>
           feedback_table (backend (Feedback.session sts s w).2)) ∧
  NoDup (Feedback.id <$> Feedback.feedback (Feedback.session sts s w).1).
Proof.
  revert s w. induction sts as [|st sts IH]; intros s w Hb Hs; [done|].
  cbn [Feedback.session].
  destruct (step_keeps_ids_distinct st s w Hb Hs) as [Hb' Hs']. by apply IH.
Qed.

Lemma session_keeps_ids_distinct_witness :
  NoDup (Feedback.id <$>
           Feedback.feedback
             (Feedback.session
                [Feedback.Change (Feedback.SetStatus "f3" true);
                 Feedback.Change (Feedback.Delete "f1");
                 Feedback.Refresh]
                Sample.admin_loaded (Sample.world_of Sample.read_only_shop)).1).
Proof.
  apply (session_keeps_ids_distinct
           [Feedback.Change (Feedback.SetStatus "f3" true);
            Feedback.Change (Feedback.Delete "f1");
            Feedback.Refresh]
           Sample.admin_loaded (Sample.world_of Sample.read_only_shop)).
  - apply (bool_decide_unpack _). vm_compute. exact I.
  - apply (bool_decide_unpack _). vm_compute. exact I.
Defined.

(** ** Loading never writes *)

Lemma lookup_events_requests (rows : list FeedbackRow) :
  Forall (λ q, is_feedback_write q = false)
    (remote_requests (rows ≫= Feedback.lookup_events)).
Proof.
  induction rows as [|row rows IH]; [constructor|].
  rewrite bind_cons. unfold remote_requests in *. rewrite omap_app.
  apply Forall_app. split; [|done].
  unfold Feedback.lookup_events. destruct (Js.truthy_str _); cbn; by repeat constructor.
Qed.

(** X11: loading never writes: every request issued by the admin load
    and by the testimonial load is a select, and the backend is left as
    it was, whatever it answers. *)
Theorem loads_never_write s w s' w' :
  (Forall (λ q, is_feedback_write q = false)
     (remote_requests (events (Feedback.fetchFeedback s w))) ∧
   backend (world (Feedback.fetchFeedback s w)) = backend w) ∧
  (Forall (λ q, is_feedback_write q = false)
     (remote_requests (events (TestimonialSection.fetchApprovedFeedback s' w'))) ∧
   backend (world (TestimonialSection.fetchApprovedFeedback s' w')) = backend w').
Proof.
  split.
  - destruct (fetchFeedback_run s w) as (_ & Hb & _ & H). cbv zeta in H.
    split; [|done].
    destruct (fault (backend w) (calls w) _);
      [|destruct H as [_ ->]; by repeat constructor..].
    destruct H as [_ ->].
    change (Remote ?q :: ?l ++ ?t) with ([Remote q] ++ l ++ t).
    unfold remote_requests. rewrite !omap_app. repeat (apply Forall_app; split).
    + by repeat constructor.
    + apply lookup_events_requests.
    + constructor.
  - destruct (fetchApprovedFeedback_run s' w') as (_ & Hb & _ & H). cbv zeta in H.
    split; [|done].
    destruct (fault (backend w') (calls w') _);
      [|destruct H as (_ & -> & _); by repeat constructor..].
    destruct (TestimonialSection.userIds_of _);
      [destruct H as (_ & -> & _); by repeat constructor|].
    destruct H as (-> & _). by repeat constructor.
Qed.

(** ** What the pages render after a load *)

Lemma toasts_app evs1 evs2 : toasts (evs1 ++ evs2) = toasts evs1 ++ toasts evs2.
Proof. unfold toasts. by rewrite omap_app. Qed.

Lemma toasts_lookup_events (rows : list FeedbackRow) :
  toasts (rows ≫= Feedback.lookup_events) = [].
Proof.
  induction rows as [|row rows IH]; [done|].
  rewrite bind_cons, toasts_app, IH, app_nil_r.
  unfold Feedback.lookup_events. by destruct (Js.truthy_str _).
Qed.

(** X12: the initial load of the admin page always ends the skeleton
    view: a served load renders one table row per stored record, or "No
    feedback found" when nothing is stored; a failed load renders "No
    feedback found" and shows the error toast. *)
Theorem admin_mount_view w :
  let r := Feedback.mount Feedback.initial w in
  Feedback.view Feedback.initial = Feedback.Skeleton ∧
  match fault (backend w) (calls w) (SelectFeedback Feedback.all_query) with
  | NoFault =>
      length (Feedback.feedback (ui r)) = length (feedback_table (backend w)) ∧
      Feedback.view (ui r) =
        match feedback_table (backend w) with
        | [] => Feedback.NoFeedbackFound
        | _ => Feedback.Rows (Feedback.feedback (ui r))
        end ∧
      toasts (events r) = []
  | _ =>
      Feedback.view (ui r) = Feedback.NoFeedbackFound ∧
      toasts (events r) = [Feedback.error_toast]
  end.
Proof.
  cbv zeta. split; [done|]. rewrite admin_mount_eq. cbv zeta. cbn [ui events].
  set (s0 := ui (Feedback.setLoading true Feedback.initial w)).
  destruct (fetchFeedback_run s0 w) as (_ & _ & Hl & H). cbv zeta in H.
  unfold Feedback.view. rewrite Hl.
  destruct (fault (backend w) (calls w) (SelectFeedback Feedback.all_query)) eqn:Hf.
  - pose proof (admin_load_ids s0 w Hf) as Hids.
    apply Permutation_length in Hids. rewrite !length_fmap in Hids.
    destruct H as [_ Hev]. split; [done|]. split.
    + destruct (feedback_table (backend w));
        destruct (Feedback.feedback (ui (Feedback.fetchFeedback s0 w))); done.
    + rewrite Hev.
      change (SetState ?a :: Remote ?q :: ?l ++ ?t) with ([SetState a; Remote q] ++ l ++ t).
      by rewrite !toasts_app, toasts_lookup_events.
  - destruct H as [-> ->]. done.
  - destruct H as [-> ->]. done.
Qed.

Lemma no_approved_rows_selected b :
  Forall (λ rec, FeedbackTable.approved rec ≠ Js.Bool true) (feedback_table b) →
  exec_select_feedback b TestimonialSection.approved_query = [].
Proof.
  intros Hall. unfold exec_select_feedback, selected, matching, limited. cbn.
  assert (filter (λ r, FeedbackTable.approved r = Js.Bool true) (feedback_table b) = [])
    as ->; [|done].
  induction Hall as [|x l Hx _ IH]; [done|]. by rewrite filter_cons_False.
Qed.

(** X13: when the testimonial query is served and no stored row is
    approved, the view renders the empty-state box, not an error: the
    list is empty, no toast is shown, and no profile lookup is issued. *)
Theorem no_approved_rows_is_empty_state s w :
  fault (backend w) (calls w) (SelectFeedback TestimonialSection.approved_query) = NoFault →
  Forall (λ rec, FeedbackTable.approved rec ≠ Js.Bool true) (feedback_table (backend w)) →
  let r := TestimonialSection.fetchApprovedFeedback s w in
  TestimonialSection.view (ui r) = TestimonialSection.EmptyState ∧
  toasts (events r) = [] ∧
  remote_requests (events r) = [SelectFeedback TestimonialSection.approved_query].
Proof.
  intros Hf Hall. cbv zeta.
  destruct (fetchApprovedFeedback_run s w) as (_ & _ & Hl & H). cbv zeta in H.
  rewrite Hf, (no_approved_rows_selected _ Hall), userIds_of_nil in H.
  destruct H as (Ht & -> & ->). unfold TestimonialSection.view. by rewrite Hl, Ht.
Qed.

(** X14: a failing profile lookup is handled in two ways. When the
    lookup answers with an error, the testimonials are still shown, one
    per returned row and all under "Anonymous Customer", and no toast
    appears. When the lookup promise rejects, the outer [catch] runs:
    the list is emptied and the error toast is shown. *)
Theorem failed_profile_lookup s w :
  fault (backend w) (calls w) (SelectFeedback TestimonialSection.approved_query) = NoFault →
  TestimonialSection.userIds_of
    (exec_select_feedback (backend w) TestimonialSection.approved_query) ≠ [] →
  let r := TestimonialSection.fetchApprovedFeedback s w in
  let data := exec_select_feedback (backend w) TestimonialSection.approved_query in
  match fault (backend w) (S (calls w))
          (SelectProfilesIn (TestimonialSection.userIds_of data)) with
  | NoFault => True
  | ReturnsError _ =>
      TestimonialSection.id <$> TestimonialSection.testimonials (ui r)
        = Supabase.id <$> data ∧
      Forall (λ t, TestimonialSection.author t = "Anonymous Customer")
        (TestimonialSection.testimonials (ui r)) ∧
      toasts (events r) = []
  | Rejects _ =>
      TestimonialSection.view (ui r) = TestimonialSection.EmptyState ∧
      toasts (events r) = [TestimonialSection.error_toast]
  end.
Proof.
  intros Hf Hids. cbv zeta.
  destruct (fetchApprovedFeedback_run s w) as (_ & _ & Hl & H). cbv zeta in H.
  rewrite Hf in H.
  destruct (TestimonialSection.userIds_of _) as [|u ids]; [done|].
  destruct H as (_ & H).
  destruct (fault (backend w) (S (calls w)) _); [done|..].
  - destruct H as (-> & ->). split; [|split; [|done]].
    + by rewrite <- list_fmap_compose.
    + apply Forall_fmap, Forall_forall. by intros row _.
  - destruct H as (Ht & ->). unfold TestimonialSection.view. by rewrite Hl, Ht.
Qed.

Lemma no_approved_rows_is_empty_state_witness :
  TestimonialSection.view
    (ui (TestimonialSection.fetchApprovedFeedback TestimonialSection.initial
           (Sample.world_of Sample.pending_shop)))
  = TestimonialSection.EmptyState.
Proof.
  apply (no_approved_rows_is_empty_state TestimonialSection.initial
           (Sample.world_of Sample.pending_shop)).
  - reflexivity.
  - repeat constructor. discriminate.
Defined.

Lemma failed_profile_lookup_witness :
  Forall (λ t, TestimonialSection.author t = "Anonymous Customer")
    (TestimonialSection.testimonials
       (ui (TestimonialSection.fetchApprovedFeedback TestimonialSection.initial
              (Sample.world_of Sample.profiles_down_shop)))).
Proof.
  refine (proj1 (proj2 (failed_profile_lookup TestimonialSection.initial
                          (Sample.world_of Sample.profiles_down_shop) eq_refl _))).
  vm_compute. discriminate.
Defined.

(** ** The testimonial view: resolved authors *)

Lemma foldl_insert_absent (l : list Profiles.row) (m : gmap string Profiles.row) k :
  k ∉ Profiles.id <$> l →
  foldl (λ m profile, <[Profiles.id profile := profile]> m) m l !! k = m !! k.
Proof.
  revert m. induction l as [|x l IH]; intros m Hout; [done|].
  rewrite fmap_cons, not_elem_of_cons in Hout. destruct Hout as [Hne Hout].
  cbn. rewrite IH by done. by rewrite lookup_insert_ne.
Qed.

Lemma profileMap_of_found (l : list Profiles.row) p :
  NoDup (Profiles.id <$> l) → p ∈ l →
  TestimonialSection.profileMap_of l !! Profiles.id p = Some p.
Proof.
  unfold TestimonialSection.profileMap_of.
  generalize (∅ : gmap string Profiles.row).
  induction l as [|x l IH]; intros m Hnd Hin; [by apply elem_of_nil in Hin|].
  rewrite fmap_cons in Hnd. apply NoDup_cons in Hnd as [Hx Hnd].
  apply elem_of_cons in Hin as [->|Hin]; cbn.
  - rewrite foldl_insert_absent by done. apply lookup_insert_eq.
  - by apply IH.
Qed.

(** X15: when both queries are served, a testimonial whose row refers to
    an existing profile is signed with that profile's full name, or with
    "Anonymous Customer" when the full name is missing or empty.
    Feedback and profile identifiers are primary keys. *)
Theorem testimonial_author_resolved s w :
  NoDup (FeedbackTable.id <$> feedback_table (backend w)) →
  NoDup (Profiles.id <$> profiles_table (backend w)) →
  fault (backend w) (calls w) (SelectFeedback TestimonialSection.approved_query) = NoFault →
  (∀ ids, fault (backend w) (S (calls w)) (SelectProfilesIn ids) = NoFault) →
  ∀ (i : nat) row t p,
    exec_select_feedback (backend w) TestimonialSection.approved_query !! i = Some row →
    TestimonialSection.testimonials
      (ui (TestimonialSection.fetchApprovedFeedback s w)) !! i = Some t →
    p ∈ profiles_table (backend w) →
    user_id row = Some (Profiles.id p) →
    Profiles.id p ≠ "" →
    TestimonialSection.id t = Supabase.id row ∧
    TestimonialSection.author t
      = Js.or_else (Profiles.full_name p) "Anonymous Customer".
Proof.
  intros Hnd Hndp Hf Hf2 i row t p Hrow Ht Hp Hu Hne.
  destruct (fetchApprovedFeedback_run s w) as (_ & _ & _ & H). cbv zeta in H.
  rewrite Hf in H.
  assert (NoDup (Supabase.id <$>
            exec_select_feedback (backend w) TestimonialSection.approved_query)) as Hnd'.
  { rewrite selected_row_ids. by apply selected_NoDup. }
  assert (row ∈ exec_select_feedback (backend w) TestimonialSection.approved_query)
    as Hin by (by eapply list_elem_of_lookup_2).
  assert (Profiles.id p ∈ TestimonialSection.userIds_of
            (exec_select_feedback (backend w) TestimonialSection.approved_query)) as Huin.
  { unfold TestimonialSection.userIds_of. apply list_elem_of_omap. by exists row. }
  destruct (TestimonialSection.userIds_of _) as [|u0 ids] eqn:Hids;
    [by apply elem_of_nil in Huin|].
  destruct H as (_ & H). cbv zeta in H. rewrite Hf2 in H. destruct H as (H & _).
  rewrite H, !list_lookup_fmap, Hrow in Ht. injection Ht as <-.
  unfold TestimonialSection.resolve_author.
  change (TestimonialSection.id (TestimonialSection.to_testimonial row))
    with (Supabase.id row).
  rewrite (find_by_id _ row Hnd' Hin), Hu. cbn.
  rewrite bool_decide_true by done.
  rewrite profileMap_of_found; [done| |].
  - eapply sublist_NoDup; [exact Hndp|]. apply fmap_sublist, sublist_filter.
  - apply list_elem_of_filter. by split.
Qed.

Lemma testimonial_author_resolved_witness :
  ∃ t, TestimonialSection.testimonials
         (ui (TestimonialSection.fetchApprovedFeedback TestimonialSection.initial
                (Sample.world_of Sample.shop))) !! 1%nat = Some t ∧
       TestimonialSection.id t = "f1" ∧
       TestimonialSection.author t = "Ada Okafor".
Proof.
  eexists. split; [vm_compute; reflexivity|].
  apply (testimonial_author_resolved TestimonialSection.initial
           (Sample.world_of Sample.shop)
           ltac:(apply (bool_decide_unpack _); vm_compute; exact I)
           ltac:(apply (bool_decide_unpack _); vm_compute; exact I)
           eq_refl (λ _, eq_refl)
           1%nat (select_row Sample.shop TestimonialSection.approved_query Sample.f1)
           _ Sample.ada).
  - reflexivity.
  - vm_compute. reflexivity.
  - apply list_elem_of_here.
  - reflexivity.
  - discriminate.
Defined.

(** ** The testimonial view: channels and change notifications *)





Lemma primary_queries_app evs1 evs2 :
  TestimonialSection.primary_queries (evs1 ++ evs2)
  = TestimonialSection.primary_queries evs1 ++ TestimonialSection.primary_queries evs2.
Proof. unfold TestimonialSection.primary_queries. by rewrite omap_app. Qed.

Lemma refetch_loop (l : list Channel) : ∀ s w,
  outcome (for_of l tt (λ _ _, spawn TestimonialSection.fetchApprovedFeedback) s w)
    = Returned tt ∧
  TestimonialSection.primary_queries
    (events (for_of l tt (λ _ _, spawn TestimonialSection.fetchApprovedFeedback) s w))
  = replicate (length l) TestimonialSection.approved_query.
Proof.
  induction l as [|c l IH]; intros s w; [done|].
  cbn [for_of].
  rewrite (bind_returned _ _ _ _ _ (spawn_fetchApprovedFeedback_outcome s w)).
  cbn [outcome events].
  destruct (IH (ui (spawn TestimonialSection.fetchApprovedFeedback s w))
              (world (spawn TestimonialSection.fetchApprovedFeedback s w))) as [-> Hq].
  split; [done|]. rewrite primary_queries_app, Hq.
  rewrite spawn_returned by apply fetchApprovedFeedback_run.
  destruct (fetchApprovedFeedback_trace s w) as (_ & -> & _). done.
Qed.

(** X17: a change notification on table [feedback] re-runs the pipeline
    once for every subscribed channel bound to that table, so the number
    of primary queries it issues is the number of such channels; nothing
    is thrown to the event loop. *)
Theorem change_refetches_once_per_channel s w :
  let r := TestimonialSection.on_change s w in
  outcome r = Returned tt ∧
  TestimonialSection.primary_queries (events r)
  = replicate (length (filter (λ c, table c = "feedback") (channels w)))
      TestimonialSection.approved_query.
Proof. cbv zeta. unfold TestimonialSection.on_change. apply refetch_loop. Qed.

(** X18: a run of the testimonial pipeline replaces the component state
    as a whole: the state it leaves, its requests and its toasts do not
    depend on the testimonials or the loading flag it started from. *)
Theorem fetch_replaces_testimonials s s' w :
  TestimonialSection.fetchApprovedFeedback s w
  = TestimonialSection.fetchApprovedFeedback s' w.
Proof.
  unfold TestimonialSection.fetchApprovedFeedback. run_async.
  fault_cases; cbn; [|done|done].
  destruct (exec_select_feedback (backend w) TestimonialSection.approved_query)
    as [|d data]; cbn; [done|].
  destruct (TestimonialSection.userIds_of (d :: data)) as [|u ids]; cbn; [done|].
  fault_cases; cbn; done.
Qed.

(** X19: when the testimonial query is served and the profile lookup
    does not reject, the view shows all approved stored rows if there
    are at most ten of them, and ten otherwise. *)
Theorem testimonial_count s w :
  fault (backend w) (calls w) (SelectFeedback TestimonialSection.approved_query) = NoFault →
  (∀ ids e, fault (backend w) (S (calls w)) (SelectProfilesIn ids) ≠ Rejects e) →
  length (TestimonialSection.testimonials
            (ui (TestimonialSection.fetchApprovedFeedback s w)))
  = (10 `min` length (filter (λ rec, FeedbackTable.approved rec = Js.Bool true)
                        (feedback_table (backend w))))%nat.
Proof.
  intros Hf Hrej.
  assert (length (exec_select_feedback (backend w) TestimonialSection.approved_query)
          = (10 `min` length (filter (λ rec, FeedbackTable.approved rec = Js.Bool true)
                                (feedback_table (backend w))))%nat) as <-.
  { unfold exec_select_feedback, selected, limited, matching. cbn.
    rewrite length_fmap, length_take. by rewrite merge_sort_Permutation. }
  destruct (fetchApprovedFeedback_run s w) as (_ & _ & _ & H). cbv zeta in H.
  rewrite Hf in H.
  destruct (TestimonialSection.userIds_of _) as [|u ids].
  { destruct H as (-> & _). by rewrite length_fmap. }
  destruct H as (_ & H). cbv zeta in H.
  destruct (fault (backend w) (S (calls w)) _) eqn:Hf2.
  - destruct H as (-> & _). by rewrite !length_fmap.
  - destruct H as (-> & _). by rewrite length_fmap.
  - by apply Hrej in Hf2.
Qed.

Lemma testimonial_count_witness :
  length (TestimonialSection.testimonials
            (ui (TestimonialSection.fetchApprovedFeedback TestimonialSection.initial
                   (Sample.world_of Sample.shop4))))
  = (10 `min` length (filter (λ rec, FeedbackTable.approved rec = Js.Bool true)
                        (feedback_table (backend (Sample.world_of Sample.shop4)))))%nat.
Proof.
  apply (testimonial_count TestimonialSection.initial (Sample.world_of Sample.shop4)).
  - reflexivity.
  - intros ids e. discriminate.
Defined.

(** ** The profile page: order status colours *)

Lemma lower_idempotent c : Profile.lower (Profile.lower c) = Profile.lower c.
Proof. by destruct c as [[] [] [] [] [] [] [] []]. Qed.

Lemma toLowerCase_idempotent s :
  Profile.toLowerCase (Profile.toLowerCase s) = Profile.toLowerCase s.
Proof. induction s as [|c s IH]; [done|]. cbn. by rewrite lower_idempotent, IH. Qed.

(** X20: the badge colour of an order depends only on the lower-cased
    status: lower-casing the status first changes nothing; the five
    known statuses get five different colours, and every other status
    (the empty one included) gets the gray default. *)
Theorem status_colour_by_lower_case :
  (∀ s, Profile.getStatusColor (Profile.toLowerCase s) = Profile.getStatusColor s) ∧
  (∀ s, Profile.getStatusColor s = "bg-gray-100 text-gray-800" ↔
        Profile.toLowerCase s ∉ Profile.statuses) ∧
  (∀ s1 s2, Profile.toLowerCase s1 ∈ Profile.statuses →
            Profile.getStatusColor s1 = Profile.getStatusColor s2 →
            Profile.toLowerCase s1 = Profile.toLowerCase s2).
Proof.
  split; [|split].
  - intros s. unfold Profile.getStatusColor. by rewrite toLowerCase_idempotent.
  - intros s. unfold Profile.getStatusColor, Profile.statuses.
    rewrite !not_elem_of_cons.
    repeat case_bool_decide; split; try done; try tauto.
    intros _. repeat split; try done. apply not_elem_of_nil.
  - intros s1 s2. unfold Profile.getStatusColor, Profile.statuses.
    rewrite !elem_of_cons, elem_of_nil.
    repeat case_bool_decide; try done; try congruence; intros; exfalso; tauto.
Qed.

Example status_colours :
  Profile.getStatusColor "Shipped" = "bg-purple-100 text-purple-800" ∧
  Profile.getStatusColor "PENDING" = "bg-yellow-100 text-yellow-800" ∧
  Profile.getStatusColor "refunded" = "bg-gray-100 text-gray-800" ∧
  Profile.getStatusColor "" = "bg-gray-100 text-gray-800".
Proof. by vm_compute. Qed.

(** ** The profile page: the feedback form *)

(** X21: what the customer enters is what is stored: after a rating
    click and a comment edit, a served submission by a signed-in
    customer inserts exactly one row with that rating and comment, the
    customer's id, the current time and [approved = false]; the inserted
    row is put in front of the submitted list, the form is reset to
    rating 5 and an empty comment, and the "Feedback sent" toast is
    shown. *)
Theorem typed_feedback_is_inserted (rating : Z) (c : string) u s w :
  Profile.user s = Some u →
  c ≠ "" →
  let p := {| ins_user_id := Profile.id u; ins_rating := rating; ins_comment := c;
              ins_approved := false; ins_created_at := now w |} in
  fault (backend w) (calls w) (InsertFeedback p) = NoFault →
  let r := (run Profile.handleRatingChange rating;
            run Profile.handleFeedbackChange c;
            Profile.handleFeedbackSubmit) s w in
  remote_requests (events r) = [InsertFeedback p] ∧
  feedback_table (backend (world r))
    = feedback_table (backend w) ++ [inserted_row (backend w) (calls w) p] ∧
  Profile.submittedFeedback (ui r)
    = inserted_row (backend w) (calls w) p :: Profile.submittedFeedback s ∧
  Profile.feedbackData (ui r) = {| Profile.rating := 5; Profile.comment := "" |} ∧
  Profile.loading (ui r) = false ∧
  toasts (events r)
    = [{| title := "Feedback sent";
          description := "Thank you for your feedback! It will be visible after admin approval.";
          variant := Default |}].
Proof.
  intros Hu Hc p Hf. subst p. cbv zeta.
  unfold Profile.handleRatingChange, Profile.handleFeedbackChange,
    Profile.handleFeedbackSubmit, Profile.new_Date. run_async.
  rewrite bool_decide_true by done. rewrite Hu. cbn. rewrite Hf. cbn. done.
Qed.

Lemma typed_feedback_is_inserted_witness :
  FeedbackTable.rating <$>
    feedback_table
      (backend (world ((run Profile.handleRatingChange 2;
                        run Profile.handleFeedbackChange "Too pricey";
                        Profile.handleFeedbackSubmit)
                         Sample.customer (Sample.world_of Sample.shop))))
  = [5; 4; 3; 2].
Proof.
  rewrite (proj1 (proj2 (typed_feedback_is_inserted 2 "Too pricey" _
                           Sample.customer (Sample.world_of Sample.shop)
                           eq_refl ltac:(discriminate) eq_refl))).
  reflexivity.
Defined.

(** X22: a submission whose insert fails loses nothing: the comment and
    the rating stay in the form, the submitted list and the store are
    unchanged, only the "Submission failed" toast is shown, and the
    submit button is enabled again. *)
Theorem failed_submission_keeps_form u s w :
  Profile.user s = Some u →
  Profile.comment (Profile.feedbackData s) ≠ "" →
  fault (backend w) (calls w)
    (InsertFeedback {| ins_user_id := Profile.id u;
                       ins_rating := Profile.rating (Profile.feedbackData s);
                       ins_comment := Profile.comment (Profile.feedbackData s);
                       ins_approved := false; ins_created_at := now w |}) ≠ NoFault →
  let r := Profile.handleFeedbackSubmit s w in
  Profile.feedbackData (ui r) = Profile.feedbackData s ∧
  Profile.submittedFeedback (ui r) = Profile.submittedFeedback s ∧
  backend (world r) = backend w ∧
  Profile.loading (ui r) = false ∧
  outcome r = Returned tt ∧
  toasts (events r)
    = [{| title := "Submission failed";
          description := "An error occurred while sending your feedback";
          variant := Destructive |}].
Proof.
  intros Hu Hc Hf. cbv zeta.
  unfold Profile.handleFeedbackSubmit, Profile.new_Date. run_async.
  rewrite bool_decide_true by done. rewrite Hu. cbn.
  fault_cases; cbn; done.
Qed.

(** X23: without a signed-in user a submission with a comment issues no
    request: only the "Not logged in" toast is shown, the form and the
    world are unchanged, and the loading flag set before the check is
    cleared again. *)
Theorem submission_needs_sign_in s w :
  Profile.user s = None →
  Profile.comment (Profile.feedbackData s) ≠ "" →
  let r := Profile.handleFeedbackSubmit s w in
  events r
    = [SetState "setLoading";
       Toast {| title := "Not logged in";
                description := "You need to be logged in to submit feedback";
                variant := Destructive |};
       SetState "setLoading"] ∧
  world r = w ∧
  Profile.feedbackData (ui r) = Profile.feedbackData s ∧
  Profile.submittedFeedback (ui r) = Profile.submittedFeedback s ∧
  Profile.loading (ui r) = false.
Proof.
  intros Hu Hc. cbv zeta.
  unfold Profile.handleFeedbackSubmit. run_async.
  rewrite bool_decide_true by done. rewrite Hu. cbn. done.
Qed.

Lemma failed_submission_keeps_form_witness :
  Profile.feedbackData
    (ui (Profile.handleFeedbackSubmit Sample.customer
           (Sample.world_of Sample.read_only_shop)))
  = Profile.feedbackData Sample.customer.
Proof.
  apply (failed_submission_keeps_form _ Sample.customer
           (Sample.world_of Sample.read_only_shop) eq_refl).
  - discriminate.
  - discriminate.
Defined.

Lemma submission_needs_sign_in_witness :
  world (Profile.handleFeedbackSubmit Sample.anonymous_visitor
           (Sample.world_of Sample.shop))
  = Sample.world_of Sample.shop.
Proof.
  apply (submission_needs_sign_in Sample.anonymous_visitor
           (Sample.world_of Sample.shop)).
  - reflexivity.
  - discriminate.
Defined.

Lemma testimonials_mount_loading s w :
  TestimonialSection.loading (ui (TestimonialSection.mount s w)) = false.
Proof.
  unfold TestimonialSection.mount, TestimonialSection.effect_listen,
    TestimonialSection.effect_listen_and_fetch, subscribe.
  unfold bind; cbn.
  rewrite spawn_returned by apply fetchApprovedFeedback_run.
  match goal with
  | |- context [TestimonialSection.fetchApprovedFeedback s ?w2] =>
      destruct (fetchApprovedFeedback_run s w2) as (Ho & _ & Hl & _);
      destruct (TestimonialSection.fetchApprovedFeedback s w2) as [o1 s1 w1 evs1]
  end.
  cbn in Ho, Hl |- *. by subst o1.
Qed.

(** X24: the testimonial section starts on the skeletons and, once it
    has been activated, never stays on them, whatever the backend
    answers: it renders the cards when there are testimonials and the
    "No approved testimonials yet" box otherwise. *)
Theorem testimonial_mount_view s w :
  let s' := ui (TestimonialSection.mount s w) in
  TestimonialSection.view TestimonialSection.initial = TestimonialSection.Skeleton ∧
  TestimonialSection.view s' ≠ TestimonialSection.Skeleton ∧
  TestimonialSection.view s' =
    match TestimonialSection.testimonials s' with
    | [] => TestimonialSection.EmptyState
    | ts => TestimonialSection.Cards ts
    end.
Proof.
  cbv zeta. split; [done|]. unfold TestimonialSection.view.
  rewrite testimonials_mount_loading.
  split; [|done]. by destruct (TestimonialSection.testimonials _).
Qed.
